(** * SpaarApp: import script and budget view, embedded in Rocq

    The development follows these source files of the repository:

    - the sample-data import script ([parseCsvToTransactions],
      [mapCategory], [prepareData]);
    - the budget page of the frontend ([getProgressPercentage],
      [getBudgetStatus], the filter effect and the create, update and
      delete handlers);
    - the transactions page (its filters, totals and notifications);
    - the API layer with mock fallback ([validateStructure],
      [parseContent], [importCsv]) and the result types it declares.

    JavaScript numbers are IEEE 754 binary64 values; they are modelled
    with the Standard Library's [spec_float] at precision 53 and maximal
    exponent 1024, so every arithmetic step rounds as the program does.
    Text is modelled by [string], one character per code unit, for the
    code units U+0000 to U+00FF; white space and letter case are those
    that JavaScript gives to these code units.  Objects used as
    dictionaries are finite maps, with the members that an object
    literal inherits from [Object.prototype]. *)

From Stdlib Require Import ZArith NArith Bool List Lia.
From Stdlib Require Import Strings.Ascii Strings.String.
From Stdlib Require Import Floats.SpecFloat.
From stdpp Require Import base option list strings gmap pretty.

Set Default Proof Using "Type".

(** ** Numbers *)

Module JsNumber.

Definition number : Type := spec_float.

Definition prec : Z := 53.
Definition emax : Z := 1024.

Definition NaN : number := S754_nan.
Definition pos_zero : number := S754_zero false.

(** The number denoted by a non-negative integer literal of the source
    ([0], [50], [80], [100]). *)
Definition lit (n : N) : number :=
  binary_normalize prec emax (Z.of_N n) 0 false.

Definition add : number → number → number := SFadd prec emax.
Definition sub : number → number → number := SFsub prec emax.
Definition mul : number → number → number := SFmul prec emax.
Definition div : number → number → number := SFdiv prec emax.

(** [a <= b], [a < b], [a >= b], [a > b]: false as soon as one side is
    NaN. *)
Definition le (a b : number) : bool := SFleb a b.
Definition lt (a b : number) : bool := SFltb a b.
Definition ge (a b : number) : bool := SFleb b a.
Definition gt (a b : number) : bool := SFltb b a.

(** [a === b] on numbers. *)
Definition strict_eq (a b : number) : bool := SFeqb a b.

Definition is_nan (a : number) : bool :=
  match a with S754_nan => true | _ => false end.

(** ToBoolean on a number: [0], [-0] and [NaN] are falsy. *)
Definition truthy (a : number) : bool :=
  match a with
  | S754_zero _ | S754_nan => false
  | _ => true
  end.

(** [Math.abs]. *)
Definition abs : number → number := SFabs.

(** [Math.min] of two arguments: NaN if either is NaN, [-0] counts as
    smaller than [+0]. *)
Definition min (a b : number) : number :=
  if is_nan a || is_nan b then NaN
  else if lt b a then b
  else match a, b with
       | S754_zero false, S754_zero true => b
       | _, _ => a
       end.

(** The binary64 value nearest to [(-1)^neg * m * 10^e] (ties to even):
    the value of a decimal literal with digits [m] and exponent [e]. *)
Definition of_decimal (neg : bool) (m : N) (e : Z) : number :=
  match m with
  | N0 => S754_zero neg
  | Npos p =>
      if (0 <=? e)%Z
      then binary_round prec emax neg (p * Z.to_pos (10 ^ e)) 0
      else SFdiv prec emax (S754_finite neg p 0)
                           (S754_finite false (Z.to_pos (10 ^ (- e))) 0)
  end.

(** Sign bit clear and not NaN: [+0], a positive finite number or
    [+Infinity]. *)
Definition nonneg (a : number) : bool :=
  match a with
  | S754_zero false | S754_infinity false | S754_finite false _ _ => true
  | _ => false
  end.

(** The exact rational value [num / den] of a finite number, as a pair
    (numerator, denominator). *)
Definition exact_value (a : number) : option (Z * positive) :=
  match a with
  | S754_zero _ => Some (0%Z, 1%positive)
  | S754_finite s m e =>
      let n := cond_Zopp s (Zpos m) in
      Some match e with
           | Z0 => (n, 1%positive)
           | Zpos k => ((n * 2 ^ Zpos k)%Z, 1%positive)
           | Zneg k => (n, (2 ^ k)%positive)
           end
  | _ => None
  end.

End JsNumber.

(** ** Strings *)

Module JsString.

Definition char_code (c : ascii) : nat := nat_of_ascii c.

(** White space and line terminators among the code units up to U+00FF:
    TAB, LF, VT, FF, CR, SP and the no-break space U+00A0. *)
Definition is_space (c : ascii) : bool :=
  let n := char_code c in
  ((9 <=? n)%nat && (n <=? 13)%nat) || (n =? 32)%nat || (n =? 160)%nat.

Definition is_digit (c : ascii) : bool :=
  let n := char_code c in (48 <=? n)%nat && (n <=? 57)%nat.

Definition digit_value (c : ascii) : N := N.of_nat (char_code c - 48).

Definition is_empty (s : string) : bool :=
  match s with EmptyString => true | String _ _ => false end.

(** [s.split(sep)] for a one-character separator. *)
Fixpoint split (sep : ascii) (s : string) : list string :=
  match s with
  | EmptyString => [EmptyString]
  | String c rest =>
      if Ascii.eqb c sep then EmptyString :: split sep rest
      else match split sep rest with
           | field :: fields => String c field :: fields
           | [] => [String c EmptyString]
           end
  end.

Fixpoint trim_start (s : string) : string :=
  match s with
  | String c rest => if is_space c then trim_start rest else s
  | EmptyString => EmptyString
  end.

Fixpoint trim_end (s : string) : string :=
  match s with
  | EmptyString => EmptyString
  | String c rest =>
      let rest' := trim_end rest in
      if is_space c && is_empty rest' then EmptyString else String c rest'
  end.

(** [s.trim()]. *)
Definition trim (s : string) : string := trim_end (trim_start s).

(** The letters with a lower-case form among the code units up to
    U+00FF: A to Z, and U+00C0 to U+00DE without the multiplication sign
    U+00D7; the lower-case form is 32 code units further. *)
Definition is_upper (c : ascii) : bool :=
  let n := char_code c in
  ((65 <=? n)%nat && (n <=? 90)%nat)
  || ((192 <=? n)%nat && (n <=? 222)%nat && negb (n =? 215)%nat).

Definition lower_char (c : ascii) : ascii :=
  if is_upper c then ascii_of_nat (char_code c + 32) else c.

(** [s.toLowerCase()]. *)
Fixpoint toLowerCase (s : string) : string :=
  match s with
  | EmptyString => EmptyString
  | String c rest => String (lower_char c) (toLowerCase rest)
  end.

(** ToBoolean on a string: only the empty string is falsy. *)
Definition truthy (s : string) : bool := negb (is_empty s).

(** [s.includes(c)] for a character [c]. *)
Fixpoint has_char (c : ascii) (s : string) : bool :=
  match s with
  | EmptyString => false
  | String d rest => Ascii.eqb d c || has_char c rest
  end.

(** Longest prefix of decimal digits, and what follows it. *)
Fixpoint span_digits (s : string) : list ascii * string :=
  match s with
  | String c rest =>
      if is_digit c
      then let '(ds, tl) := span_digits rest in (c :: ds, tl)
      else ([], s)
  | EmptyString => ([], EmptyString)
  end.

Definition digits_value (ds : list ascii) : N :=
  fold_left (λ acc d, (10 * acc + digit_value d)%N) ds 0%N.

(** [s] without the prefix [p], when [s] starts with [p]. *)
Fixpoint strip_prefix (p s : string) : option string :=
  match p, s with
  | EmptyString, _ => Some s
  | String a p', String b s' =>
      if Ascii.eqb a b then strip_prefix p' s' else None
  | String _ _, EmptyString => None
  end.

(** An optional sign: [true] for [-]. *)
Definition read_sign (s : string) : bool * string :=
  match s with
  | String "-" rest => (true, rest)
  | String "+" rest => (false, rest)
  | _ => (false, s)
  end.

(** The exponent part [e|E [+|-] digits] when present and well formed,
    zero otherwise. *)
Definition read_exponent (s : string) : Z :=
  match s with
  | String c rest =>
      if Ascii.eqb c "e" || Ascii.eqb c "E" then
        let '(neg, rest') := read_sign rest in
        let '(ds, _) := span_digits rest' in
        match ds with
        | [] => 0%Z
        | _ => cond_Zopp neg (Z.of_N (digits_value ds))
        end
      else 0%Z
  | EmptyString => 0%Z
  end.

(** [parseFloat(s)]: leading white space is skipped, then the longest
    prefix that is a decimal literal (or a signed [Infinity]) is
    converted; NaN when there is none. *)
Definition parseFloat (s : string) : JsNumber.number :=
  let '(neg, body) := read_sign (trim_start s) in
  match strip_prefix "Infinity" body with
  | Some _ => S754_infinity neg
  | None =>
      let '(int_digits, after_int) := span_digits body in
      let '(frac_digits, after_frac) :=
        match after_int with
        | String "." rest => span_digits rest
        | _ => ([], after_int)
        end in
      match int_digits ++ frac_digits with
      | [] => JsNumber.NaN
      | ds =>
          JsNumber.of_decimal neg (digits_value ds)
            (read_exponent after_frac - Z.of_nat (length frac_digits))
      end
  end.

(** [s.includes(t)]: whether [t] occurs in [s]. *)
Fixpoint includes (s t : string) : bool :=
  match strip_prefix t s with
  | Some _ => true
  | None =>
      match s with
      | EmptyString => false
      | String _ rest => includes rest t
      end
  end.

End JsString.

(** ** Failures and dictionary lookups *)

(** [TypeError] is the exception raised by a method call on
    [undefined]. *)
Inductive failure := TypeError.

Inductive outcome (A : Type) : Type :=
  | Ok (a : A)
  | Throw (e : failure).
Arguments Ok {A} a.
Arguments Throw {A} e.

#[global] Instance outcome_ret : MRet outcome := λ A a, Ok a.
#[global] Instance outcome_bind : MBind outcome := λ A B f x,
  match x with
  | Ok a => f a
  | Throw e => Throw e
  end.

Definition is_ok {A} (x : outcome A) : bool :=
  match x with Ok _ => true | Throw _ => false end.

Module JsObject.

Definition object_prototype_names : list string :=
  ["constructor"; "__defineGetter__"; "__defineSetter__";
   "hasOwnProperty"; "__lookupGetter__"; "__lookupSetter__";
   "isPrototypeOf"; "propertyIsEnumerable"; "toString"; "valueOf";
   "__proto__"; "toLocaleString"].

Definition inherited (k : string) : bool :=
  bool_decide (k ∈ object_prototype_names).

(** The property key an optional string stands for: [undefined] is
    converted to the string ["undefined"]. *)
Definition property_key (k : option string) : string :=
  default "undefined" k.

(** What [o[k]] evaluates to on an object literal used as a dictionary:
    the own property when there is one; otherwise the member of
    [Object.prototype] of that name when there is one (a function, or
    the prototype object itself for [__proto__]); otherwise
    [undefined]. *)
Inductive Property (V : Type) : Type :=
  | own (v : V)
  | inherited_member (name : string)
  | undefined.
Arguments own {V} v.
Arguments inherited_member {V} name.
Arguments undefined {V}.

Definition get {V} (o : gmap string V) (k : string) : Property V :=
  match o !! k with
  | Some v => own v
  | None => if inherited k then inherited_member k else undefined
  end.

(** [o[k] = v] for a value [v] that is not an object: a new or changed
    own property, except for the key [__proto__], whose inherited setter
    ignores such a value. *)
Definition set {V} (o : gmap string V) (k : string) (v : V) : gmap string V :=
  if String.eqb k "__proto__" then o else <[k := v]> o.

(** The string that a member of [Object.prototype] is converted to, as
    Node renders it: the prototype object is [[object Object]], the
    functions are rendered with their name ([Object] for the
    constructor). *)
Definition member_text (name : string) : string :=
  if String.eqb name "__proto__" then "[object Object]"
  else "function "
       +:+ (if String.eqb name "constructor" then "Object" else name)
       +:+ "() { [native code] }".

End JsObject.

(** ** The system clock *)

(** [readings n] is what the [n]-th reading of the clock returns, in
    milliseconds; [cursor] counts the readings made so far. *)
Record Clock := { readings : nat → N; cursor : nat }.

(** [Date.now()] and [new Date()]: read the clock once. *)
Definition read_clock (c : Clock) : N * Clock :=
  (readings c (cursor c),
   {| readings := readings c; cursor := S (cursor c) |}).

(** ** Data model (types/index.ts) *)

Inductive TransactionType := credit | debit.

(** The values a [category_id] holds: [null] or no value; a string; or a
    member of [Object.prototype], which is what [mapCategory] of the
    import script returns for a name such as [constructor]. *)
Inductive CategoryId :=
  | no_category
  | category (id : string)
  | category_member (name : string).

#[global] Instance TransactionType_eq_dec : EqDecision TransactionType.
Proof. solve_decision. Defined.

Module Transaction.
(** The objects built by [parseCsvToTransactions].  [created_at] and
    [updated_at] hold the clock reading whose ISO rendering the script
    stores. *)
Record t := {
  id : string;
  date : option string;
  description : option string;
  amount : JsNumber.number;
  transaction_type : TransactionType;
  category_id : CategoryId;
  account_number : option string;
  account_holder : option string;
  tags : list string;
  notes : string;
  is_recurring : bool;
  created_at : N;
  updated_at : N
}.
End Transaction.

Inductive Period := weekly | monthly | quarterly | yearly.

Module Budget.
(** A budget object whose property [spent] holds a value of type [S]:
    a number in the frontend; the import script can also store other
    values there. *)
Record record (S : Type) := {
  id : string;
  name : string;
  category_id : option string;
  amount : JsNumber.number;
  period : Period;
  spent : S;
  remaining : JsNumber.number;
  is_active : bool;
  notification_threshold : option JsNumber.number;
  start_date : string;
  end_date : option string;
  created_at : string;
  updated_at : string
}.
Arguments id {S} _.
Arguments name {S} _.
Arguments category_id {S} _.
Arguments amount {S} _.
Arguments period {S} _.
Arguments spent {S} _.
Arguments remaining {S} _.
Arguments is_active {S} _.
Arguments notification_threshold {S} _.
Arguments start_date {S} _.
Arguments end_date {S} _.
Arguments created_at {S} _.
Arguments updated_at {S} _.

(** The interface [Budget] of types/index.ts. *)
Definition t : Type := record JsNumber.number.

Definition with_spent {S S'} (b : record S) (spent' : S')
    (remaining' : JsNumber.number) : record S' :=
  {| id := id b; name := name b; category_id := category_id b;
     amount := amount b; period := period b;
     spent := spent'; remaining := remaining';
     is_active := is_active b;
     notification_threshold := notification_threshold b;
     start_date := start_date b; end_date := end_date b;
     created_at := created_at b; updated_at := updated_at b |}.

Definition with_threshold (b : t) (th : option JsNumber.number) : t :=
  {| id := id b; name := name b; category_id := category_id b;
     amount := amount b; period := period b;
     spent := spent b; remaining := remaining b;
     is_active := is_active b;
     notification_threshold := th;
     start_date := start_date b; end_date := end_date b;
     created_at := created_at b; updated_at := updated_at b |}.
End Budget.

Module Category.
Record t := {
  id : string;
  name : string;
  description : option string;
  color : string;
  icon : string;
  parent_id : option string;
  is_system : bool;
  budget_percentage : option JsNumber.number;
  created_at : string;
  updated_at : string
}.
End Category.

(** ** The import script *)

Module ImportScript.
Import JsNumber JsString JsObject.

Definition category_table : list (string * string) :=
    [("Supermarkten", "cat_supermarkets");
     ("Boodschappen", "cat_supermarkets");
     ("Restaurants", "cat_restaurants");
     ("Transport", "cat_transport");
     ("Wonen", "cat_housing");
     ("Vrije tijd", "cat_leisure");
     ("Werk", "cat_work");
     ("Zorg", "cat_health");
     ("Belastingen", "cat_taxes");
     ("Verzekeringen", "cat_insurance");
     ("Kleding", "cat_clothing");
     ("Electronica", "cat_electronics");
     ("Huishouden", "cat_household");
     ("Sport", "cat_sports");
     ("Communicatie", "cat_communication");
     ("Kinderen", "cat_children");
     ("Auto", "cat_auto");
     ("Banken", "cat_banks");
     ("Bonus", "cat_bonus")].

Definition categoryMap : gmap string string := list_to_map category_table.

(** [categoryMap[categoryName] || null]. *)
Definition mapCategory (categoryName : option string) : CategoryId :=
  match get categoryMap (property_key categoryName) with
  | own cat => if JsString.truthy cat then category cat else no_category
  | inherited_member name => category_member name
  | undefined => no_category
  end.

(** The template literal [txn_${Date.now()}_${i}]. *)
Definition transaction_id (now : N) (i : nat) : string :=
  "txn_" +:+ pretty now +:+ "_" +:+ pretty i.

(** The body of the loop for one non-empty trimmed line, at index [i]
    of [lines]. *)
Definition parse_line (clock : Clock) (i : nat) (line : string)
  : outcome (Transaction.t * Clock) :=
  let values := split "," line in
  let '(now, clock) := read_clock clock in
  direction ← match values !! 3%nat with
              | Some v => Ok (toLowerCase v)
              | None => Throw TypeError
              end;
  let category := mapCategory (values !! 4%nat) in
  let '(created, clock) := read_clock clock in
  let '(updated, clock) := read_clock clock in
  mret ({| Transaction.id := transaction_id now i;
           Transaction.date := values !! 0%nat;
           Transaction.description := values !! 1%nat;
           Transaction.amount :=
             match values !! 2%nat with
             | Some v => parseFloat v
             | None => NaN
             end;
           Transaction.transaction_type :=
             if String.eqb direction "credit" then credit else debit;
           Transaction.category_id := category;
           Transaction.account_number := values !! 5%nat;
           Transaction.account_holder := values !! 6%nat;
           Transaction.tags :=
             match values !! 7%nat with
             | Some v => if JsString.truthy v then split ";" v else []
             | None => []
             end;
           Transaction.notes := "";
           Transaction.is_recurring := false;
           Transaction.created_at := created;
           Transaction.updated_at := updated |}, clock).

(** The [for] loop from index [i] on; [lines] are [lines[i]],
    [lines[i+1]], ... *)
Fixpoint parse_lines (clock : Clock) (i : nat) (lines : list string)
  : outcome (list Transaction.t * Clock) :=
  match lines with
  | [] => mret ([], clock)
  | raw :: rest =>
      let line := trim raw in
      if is_empty line then parse_lines clock (S i) rest
      else
        '(transaction, clock) ← parse_line clock i line;
        '(transactions, clock) ← parse_lines clock (S i) rest;
        mret (transaction :: transactions, clock)
  end.

(** [parseCsvToTransactions()], given the content of the CSV file. *)
Definition parseCsvToTransactions (csvContent : string) (clock : Clock)
  : outcome (list Transaction.t * Clock) :=
  let lines := split "010" csvContent in
  parse_lines clock 1 (tail lines).

(** The values that an entry of [spendingByCategory] and the property
    [spent] of a budget can hold: a number; a member of
    [Object.prototype]; or the text that [+] builds when its left
    operand is such a member or such a text, which is the string of the
    member followed by the strings of the amounts added so far. *)
Inductive Spent :=
  | num (n : number)
  | spent_member (name : string)
  | spent_text (name : string) (amounts : list number).

(** [x || 0] for the result [x] of a lookup in [spendingByCategory]:
    the numbers 0 and NaN are falsy, a member and a text are truthy. *)
Definition or_zero (x : Property Spent) : Spent :=
  match x with
  | own (num v) => if JsNumber.truthy v then num v else num (lit 0)
  | own v => v
  | inherited_member name => spent_member name
  | undefined => num (lit 0)
  end.

(** [x + y] for a number [y]. *)
Definition plus (x : Spent) (y : number) : Spent :=
  match x with
  | num v => num (add v y)
  | spent_member name => spent_text name [y]
  | spent_text name amounts => spent_text name (amounts ++ [y])
  end.

(** [x - y]: a member and a text are converted to NaN. *)
Definition minus (x : number) (y : Spent) : number :=
  match y with
  | num v => sub x v
  | _ => NaN
  end.

(** The property key of a category id that is truthy. *)
Definition category_key (c : CategoryId) : option string :=
  match c with
  | no_category => None
  | category id => if JsString.truthy id then Some id else None
  | category_member name => Some (member_text name)
  end.

(** One step of [transactions.forEach] in [prepareData]. *)
Definition record_spending (spendingByCategory : gmap string Spent)
    (tx : Transaction.t) : gmap string Spent :=
  match Transaction.transaction_type tx,
        category_key (Transaction.category_id tx) with
  | debit, Some key =>
      set spendingByCategory key
          (plus (or_zero (get spendingByCategory key))
                (abs (Transaction.amount tx)))
  | _, _ => spendingByCategory
  end.

Definition spending_of (spendingByCategory : gmap string Spent)
    (transactions : list Transaction.t) : gmap string Spent :=
  fold_left record_spending transactions spendingByCategory.

(** One step of [seedData.budgets.forEach]. *)
Definition update_budget (spendingByCategory : gmap string Spent)
    (budget : Budget.record Spent) : Budget.record Spent :=
  let spent :=
    or_zero (get spendingByCategory
                 (property_key (Budget.category_id budget))) in
  Budget.with_spent budget spent (minus (Budget.amount budget) spent).

(** The seed data: its budgets and everything else in the JSON file. *)
Record SeedData (R : Type) := {
  budgets : list (Budget.record Spent);
  other : R
}.
Arguments budgets {R} _.
Arguments other {R} _.

(** [prepareData()], given the flag [importCsv], the parsed seed file
    and the content of the CSV file. *)
Definition prepareData {R} (importCsv : bool) (seedData : SeedData R)
    (csvContent : string) (clock : Clock) : outcome (SeedData R * Clock) :=
  if importCsv then
    '(transactions, clock) ← parseCsvToTransactions csvContent clock;
    let spendingByCategory := spending_of ∅ transactions in
    mret ({| budgets :=
               List.map (update_budget spendingByCategory)
                        (budgets seedData);
             other := other seedData |}, clock)
  else mret (seedData, clock).

End ImportScript.

(** ** The budget page (Budgets.tsx) *)

Module BudgetsPage.
Import JsNumber.

(** Calculate budget progress percentage. *)
Definition getProgressPercentage (budget : Budget.t) : number :=
  if le (Budget.amount budget) (lit 0) then lit 0
  else
    let percentage :=
      mul (div (Budget.spent budget) (Budget.amount budget)) (lit 100) in
    min percentage (lit 100).

Inductive PaletteColor := error_main | warning_main | info_main | success_main.
Inductive Icon := WarningIcon | TrendingUpIcon | TimelineIcon | CheckCircleIcon.

(** [bgColor] is the colour that [alpha(_, 0.1)] fades. *)
Record BudgetStatus := {
  color : PaletteColor;
  bgColor : PaletteColor;
  icon : Icon;
  text : string
}.

(** Get budget status color and icon. *)
Definition getBudgetStatus (budget : Budget.t) : BudgetStatus :=
  let percentage := getProgressPercentage budget in
  if ge percentage (lit 100) then
    {| color := error_main; bgColor := error_main;
       icon := WarningIcon; text := "OverBudget" |}
  else if ge percentage (lit 80) then
    {| color := warning_main; bgColor := warning_main;
       icon := TrendingUpIcon; text := "Waarschuwing" |}
  else if ge percentage (lit 50) then
    {| color := info_main; bgColor := info_main;
       icon := TimelineIcon; text := "Op Goed Weg" |}
  else
    {| color := success_main; bgColor := success_main;
       icon := CheckCircleIcon; text := "Goed" |}.

(** What the body of [filteredBudgets.map] computes for one card. *)
Record BudgetCard := {
  status : BudgetStatus;
  progressPercentage : number;
  remaining : number
}.

Definition budget_card (budget : Budget.t) : BudgetCard :=
  {| status := getBudgetStatus budget;
     progressPercentage := getProgressPercentage budget;
     remaining := sub (Budget.amount budget) (Budget.spent budget) |}.

Record BudgetFormData := {
  name : string;
  category_id : option string;
  amount : number;
  period : Period;
  start_date : string;
  end_date : option string;
  is_active : bool;
  notification_threshold : option number
}.

(** [BudgetWithCategory]: a budget with the category attached to it. *)
Record BudgetWithCategory := {
  budget : Budget.t;
  category : option Category.t
}.

(** The component state that the create and update handlers read or
    write. *)
Record State := {
  budgets : list BudgetWithCategory;
  categories : list Category.t;
  isCreateDialogOpen : bool;
  isEditDialogOpen : bool;
  editingBudget : option Budget.t;
  error : option string;
  success : option string;
  formData : BudgetFormData
}.

Definition setError (msg : string) (st : State) : State :=
  {| budgets := budgets st; categories := categories st;
     isCreateDialogOpen := isCreateDialogOpen st;
     isEditDialogOpen := isEditDialogOpen st;
     editingBudget := editingBudget st;
     error := Some msg; success := success st;
     formData := formData st |}.

(** [categories.find(cat => cat.id === formData.category_id)]. *)
Definition find_category (cats : list Category.t) (wanted : option string)
  : option Category.t :=
  match wanted with
  | Some c => List.find (λ cat, String.eqb (Category.id cat) c) cats
  | None => None
  end.

Section Handlers.

(** The storage backend behind [budgetsApi]: [create] and [update]
    either resolve with the stored budget or reject ([None]).
    [today] is the date [resetFormData] puts in the form. *)
Variable Backend : Type.
Variable create : BudgetFormData → Backend → option Budget.t * Backend.
Variable update :
  string → BudgetFormData → Backend → option Budget.t * Backend.
Variable today : string.

Definition emptyFormData : BudgetFormData :=
  {| name := ""; category_id := None; amount := lit 0;
     period := monthly; start_date := today; end_date := None;
     is_active := true; notification_threshold := None |}.

(** [!formData.name.trim() || formData.amount <= 0]. *)
Definition invalid_form (form : BudgetFormData) : bool :=
  negb (JsString.truthy (JsString.trim (name form)))
  || le (amount form) (lit 0).

(** Handle create budget. *)
Definition handleCreateBudget (st : State) (backend : Backend)
  : State * Backend :=
  if invalid_form (formData st) then
    (setError "Budget naam en bedrag zijn verplicht" st, backend)
  else
    match create (formData st) backend with
    | (Some newBudget, backend) =>
        ({| budgets :=
              budgets st ++
              [{| budget := newBudget;
                  category :=
                    find_category (categories st)
                                  (category_id (formData st)) |}];
            categories := categories st;
            isCreateDialogOpen := false;
            isEditDialogOpen := isEditDialogOpen st;
            editingBudget := editingBudget st;
            error := error st;
            success := Some "Budget succesvol aangemaakt";
            formData := emptyFormData |}, backend)
    | (None, backend) => (setError "Budget aanmaken mislukt" st, backend)
    end.

(** Handle update budget. *)
Definition handleUpdateBudget (st : State) (backend : Backend)
  : State * Backend :=
  match editingBudget st with
  | None => (setError "Budget naam en bedrag zijn verplicht" st, backend)
  | Some editing =>
      if invalid_form (formData st) then
        (setError "Budget naam en bedrag zijn verplicht" st, backend)
      else
        match update (Budget.id editing) (formData st) backend with
        | (Some updatedBudget, backend) =>
            ({| budgets :=
                  List.map
                    (λ b,
                       if String.eqb (Budget.id (budget b))
                                     (Budget.id editing)
                       then {| budget := updatedBudget;
                               category :=
                                 find_category (categories st)
                                   (category_id (formData st)) |}
                       else b)
                    (budgets st);
                categories := categories st;
                isCreateDialogOpen := isCreateDialogOpen st;
                isEditDialogOpen := false;
                editingBudget := None;
                error := error st;
                success := Some "Budget succesvol bijgewerkt";
                formData := emptyFormData |}, backend)
        | (None, backend) =>
            (setError "Budget bijwerken mislukt" st, backend)
        end
  end.

End Handlers.

(** The effect that filters the budgets on the search term and on the
    active status. *)
Definition matches_search (searchTerm : string) (b : BudgetWithCategory)
  : bool :=
  JsString.includes (JsString.toLowerCase (Budget.name (budget b)))
                    (JsString.toLowerCase searchTerm)
  || match category b with
     | Some cat =>
         JsString.includes (JsString.toLowerCase (Category.name cat))
                           (JsString.toLowerCase searchTerm)
     | None => false
     end.

Definition filterBudgets (allBudgets : list BudgetWithCategory)
    (searchTerm : string) (showInactiveBudgets : bool)
  : list BudgetWithCategory :=
  let filtered :=
    if JsString.truthy searchTerm
    then List.filter (matches_search searchTerm) allBudgets
    else allBudgets in
  if negb showInactiveBudgets
  then List.filter (λ b, Budget.is_active (budget b)) filtered
  else filtered.

(** The colour of the progress bar of a card:
    [progressPercentage >= 80 ? error.main : status.color]. *)
Definition progress_bar_color (b : Budget.t) : PaletteColor :=
  if ge (getProgressPercentage b) (lit 80) then error_main
  else color (getBudgetStatus b).

(** The amount field of the form:
    [setFormData({ ...formData, amount: parseFloat(e.target.value) || 0 })]. *)
Definition onAmountChange (value : string) (st : State) : State :=
  let typed := JsString.parseFloat value in
  {| budgets := budgets st; categories := categories st;
     isCreateDialogOpen := isCreateDialogOpen st;
     isEditDialogOpen := isEditDialogOpen st;
     editingBudget := editingBudget st;
     error := error st; success := success st;
     formData :=
       {| name := name (formData st);
          category_id := category_id (formData st);
          amount := if truthy typed then typed else lit 0;
          period := period (formData st);
          start_date := start_date (formData st);
          end_date := end_date (formData st);
          is_active := is_active (formData st);
          notification_threshold := notification_threshold (formData st) |} |}.

Section DialogHandlers.

(** [remove] is [budgetsApi.delete]: it resolves (with a boolean the
    page does not read) or rejects ([None]). *)
Variable Backend : Type.
Variable remove : string → Backend → option bool * Backend.

(** Handle delete budget; [confirmed] is the answer to
    [window.confirm]. *)
Definition handleDeleteBudget (confirmed : bool) (target : Budget.t)
    (st : State) (backend : Backend) : State * Backend :=
  if confirmed then
    match remove (Budget.id target) backend with
    | (Some _, backend) =>
        ({| budgets :=
              List.filter
                (λ b, negb (String.eqb (Budget.id (budget b))
                                       (Budget.id target)))
                (budgets st);
            categories := categories st;
            isCreateDialogOpen := isCreateDialogOpen st;
            isEditDialogOpen := isEditDialogOpen st;
            editingBudget := editingBudget st;
            error := error st;
            success := Some "Budget succesvol verwijderd";
            formData := formData st |}, backend)
    | (None, backend) => (setError "Budget verwijderen mislukt" st, backend)
    end
  else (st, backend).

End DialogHandlers.

End BudgetsPage.

(** ** The transactions page (Transactions.tsx) and the API layer *)

Module TransactionsPage.
Import JsNumber.

Inductive NotificationType := success | error | warning | info.

Record Notification := {
  id : string;
  type : NotificationType;
  title : string;
  message : option string;
  duration : option number;
  persistent : option bool
}.

Definition addNotification (notification : Notification)
    (prev : list Notification) : list Notification :=
  prev ++ [notification].

Definition removeNotification (wanted : string) (prev : list Notification)
  : list Notification :=
  List.filter (λ n, negb (String.eqb (id n) wanted)) prev.

(** The type filter: ['all'], ['credit'] or ['debit']. *)
Inductive TypeFilter := all_types | only (t : TransactionType).

(** The callback of [transactions.filter].  Calling [toLowerCase] on a
    description that is [undefined] raises a [TypeError]. *)
Definition matches_filters (searchQuery : string) (filterType : TypeFilter)
    (selectedCategory : string) (transaction : Transaction.t)
  : outcome bool :=
  description ← match Transaction.description transaction with
                | Some d => Ok d
                | None => Throw TypeError
                end;
  let matchesSearch :=
    JsString.includes (JsString.toLowerCase description)
                      (JsString.toLowerCase searchQuery)
    || match Transaction.account_holder transaction with
       | Some holder =>
           JsString.includes (JsString.toLowerCase holder)
                             (JsString.toLowerCase searchQuery)
       | None => false
       end in
  let matchesType :=
    match filterType with
    | all_types => true
    | only t =>
        bool_decide (Transaction.transaction_type transaction = t)
    end in
  let matchesCategory :=
    String.eqb selectedCategory "all"
    || match Transaction.category_id transaction with
       | category cat => String.eqb cat selectedCategory
       | _ => false
       end in
  Ok (matchesSearch && matchesType && matchesCategory).

Fixpoint filteredTransactions (transactions : list Transaction.t)
    (searchQuery : string) (filterType : TypeFilter)
    (selectedCategory : string) : outcome (list Transaction.t) :=
  match transactions with
  | [] => Ok []
  | transaction :: rest =>
      matches_filters searchQuery filterType selectedCategory transaction
      ≫= λ keep : bool,
      filteredTransactions rest searchQuery filterType selectedCategory
      ≫= λ kept : list Transaction.t,
      Ok (if keep then transaction :: kept else kept)
  end.

(** [.filter(t => t.transaction_type === kind).reduce((sum, t) => sum +
    t.amount, 0)]. *)
Definition total_of (kind : TransactionType)
    (filtered : list Transaction.t) : number :=
  fold_left (λ sum t, add sum (Transaction.amount t))
    (List.filter
       (λ t, bool_decide (Transaction.transaction_type t = kind))
       filtered)
    (lit 0).

Definition totalIncome : list Transaction.t → number := total_of credit.
Definition totalExpenses : list Transaction.t → number := total_of debit.

End TransactionsPage.

Module ImportResult.
(** The interface [ImportResult] of types/index.ts.  It is declared
    only: no function of the sources builds or reads such a result. *)
Record t := {
  success : bool;
  imported : JsNumber.number;
  skipped : JsNumber.number;
  errors : list string;
  transactions : list Transaction.t
}.
End ImportResult.

Module CsvImportResult.
(** The interface [CsvImportResult] of types/index.ts, which is the
    type of what the backend resolves an import with. *)
Record t := {
  success : bool;
  transactions : list Transaction.t;
  errors : list string;
  warnings : list string;
  total_rows : JsNumber.number;
  imported_rows : JsNumber.number
}.
End CsvImportResult.

Module MockImportResult.
(** The object that the API layer with mock fallback writes out as
    import result. *)
Record t := {
  success : bool;
  imported_count : JsNumber.number;
  errors : list string;
  duplicate_count : JsNumber.number;
  total_processed : JsNumber.number
}.
End MockImportResult.

(** What an import of the API layer returns: the result the backend
    resolved, or the object the layer writes out itself. *)
Inductive ImportReturn :=
  | resolved (result : CsvImportResult.t)
  | written_out (result : MockImportResult.t).

Definition mock_import_result : MockImportResult.t :=
  {| MockImportResult.success := true;
     MockImportResult.imported_count := JsNumber.lit 15;
     MockImportResult.errors := [];
     MockImportResult.duplicate_count := JsNumber.lit 2;
     MockImportResult.total_processed := JsNumber.lit 17 |}.

Module AppApi.

(** [appApi.importCsv] of the API layer with mock fallback.
    [useMockData] is what [useMockData()] returns; [selected] is the
    path the file dialog resolves, [None] when it resolves [null] or is
    rejected; [invoke] is the backend command [import_csv], [None] when
    it is rejected.  Every failure is caught and answered with the
    written-out object. *)
Definition importCsv (useMockData : bool) (selected : option string)
    (invoke : string → option CsvImportResult.t) : ImportReturn :=
  if useMockData then written_out mock_import_result
  else
    match selected with
    | Some filePath =>
        if JsString.truthy filePath then
          match invoke filePath with
          | Some result => resolved result
          | None => written_out mock_import_result
          end
        else written_out mock_import_result
    | None => written_out mock_import_result
    end.

End AppApi.

Module CsvApi.

(** [csvApi.validateStructure] of the API layer with mock fallback. *)
Definition validateStructure (content : string) : bool :=
  JsString.includes content "Datum"
  && JsString.includes content "Bedrag"
  && JsString.includes content "Omschrijving".


End CsvApi.

(** * Notions used in the statements, and example data *)

Section BudgetsPageNotions.
Import JsNumber BudgetsPage.

(** The percentage before it is capped. *)
Definition raw_percentage (budget : Budget.t) : number :=
  mul (div (Budget.spent budget) (Budget.amount budget)) (lit 100).

(** A budget for the examples: only the category, the amount, what was
    spent and the threshold vary. *)
Definition sample_budget (cat : option string) (amount spent : number)
    (threshold : option number) : Budget.t :=
  {| Budget.id := "budget-1"; Budget.name := "Boodschappen";
     Budget.category_id := cat; Budget.amount := amount;
     Budget.period := monthly; Budget.spent := spent;
     Budget.remaining := sub amount spent; Budget.is_active := true;
     Budget.notification_threshold := threshold;
     Budget.start_date := "2024-11-01"; Budget.end_date := None;
     Budget.created_at := ""; Budget.updated_at := "" |}.

Definition validation_message : string :=
  "Budget naam en bedrag zijn verplicht".

(** A backend for the examples: the stored budgets; [create] stores
    the form as a new budget and [update] replaces the budget with the
    given id. *)
Definition budget_of_form (id : string) (form : BudgetFormData) : Budget.t :=
  {| Budget.id := id; Budget.name := name form;
     Budget.category_id := category_id form;
     Budget.amount := amount form; Budget.period := period form;
     Budget.spent := lit 0; Budget.remaining := amount form;
     Budget.is_active := is_active form;
     Budget.notification_threshold := notification_threshold form;
     Budget.start_date := start_date form;
     Budget.end_date := end_date form;
     Budget.created_at := ""; Budget.updated_at := "" |}.

Definition store_create (form : BudgetFormData) (stored : list Budget.t)
  : option Budget.t * list Budget.t :=
  let b := budget_of_form ("budget-" +:+ pretty (length stored)) form in
  (Some b, stored ++ [b]).

Definition store_update (id : string) (form : BudgetFormData)
    (stored : list Budget.t) : option Budget.t * list Budget.t :=
  if existsb (λ b, String.eqb (Budget.id b) id) stored then
    let b := budget_of_form id form in
    (Some b,
     List.map (λ old, if String.eqb (Budget.id old) id then b else old)
              stored)
  else (None, stored).

(** The page with one budget being edited and [-5] typed as amount. *)
Definition editing_state : State :=
  let b := sample_budget (Some "cat-1") (lit 100) (lit 60) None in
  {| budgets := [{| budget := b; category := None |}];
     categories := [];
     isCreateDialogOpen := false; isEditDialogOpen := true;
     editingBudget := Some b; error := None; success := None;
     formData :=
       {| name := "Boodschappen"; category_id := Some "cat-1";
          amount := JsString.parseFloat "-5"; period := monthly;
          start_date := "2024-11-01"; end_date := None;
          is_active := true; notification_threshold := None |} |}.

End BudgetsPageNotions.

Section ImportNotions.
Import JsNumber JsString JsObject ImportScript.

(** The lines the loop of [parseCsvToTransactions] turns into
    transactions: the lines after the header, trimmed, the empty ones
    left out. *)
Definition data_lines (csvContent : string) : list string :=
  List.filter (λ line, negb (is_empty line))
              (List.map trim (tail (split "010" csvContent))).

(** What a transaction takes from its row: every property but the id
    and the two time stamps. *)
Definition row_content (tx : Transaction.t) :=
  (Transaction.date tx, Transaction.description tx, Transaction.amount tx,
   Transaction.transaction_type tx, Transaction.category_id tx,
   Transaction.account_number tx, Transaction.account_holder tx,
   Transaction.tags tx, Transaction.notes tx, Transaction.is_recurring tx).

(** Files and clocks for the examples. *)
Definition line_feed : string := String "010" EmptyString.

Fixpoint csv_of_lines (lines : list string) : string :=
  match lines with
  | [] => EmptyString
  | [line] => line
  | line :: rest => line +:+ line_feed +:+ csv_of_lines rest
  end.

Definition fixed_clock (ms : N) : Clock :=
  {| readings := λ _, ms; cursor := 0 |}.

Definition header_line : string :=
  "date,description,amount,type,category,account_number,account_holder,tags".

Definition groceries_csv : string :=
  csv_of_lines
    [header_line;
     "2024-09-02,Albert Heijn,87.45,debit,Supermarkten,NL91RABO0315273637,Albert Heijn,boodschappen"].

Definition salary_csv : string :=
  csv_of_lines
    [header_line;
     "2024-09-25,Salaris Werkgever BV,2800.00,Bij,Werk,NL91RABO0315273637,Werkgever BV,salaris"].

Definition gift_csv : string :=
  csv_of_lines
    [header_line;
     "2024-09-14,Bloemenwinkel Flora,25.00,debit,Overig,NL91RABO0315273637,Flora,cadeau"].

(** The scenario of a Dutch export: comma as decimal separator, dot as
    thousands separator. *)
Definition dutch_csv : string :=
  csv_of_lines
    ["Datum,Omschrijving,Bedrag,Af/Bij";
     "15-01-2024,Albert Heijn,87,45,Af";
     "01-02-2024,Huur februari,1.200,00,Af"].

Definition nan_or_nonneg (v : number) : bool := is_nan v || nonneg v.

(** A budget as the seed file gives it: what was spent is a number. *)
Definition seed_budget (budget : Budget.t) : Budget.record Spent :=
  Budget.with_spent budget (num (Budget.spent budget))
                    (Budget.remaining budget).

(** The transactions that [record_spending] files under the key [k]:
    the debits whose category id is truthy and has the property key
    [k]. *)
Definition filed_under (k : string) (tx : Transaction.t) : bool :=
  match Transaction.transaction_type tx,
        category_key (Transaction.category_id tx) with
  | debit, Some key => String.eqb key k
  | _, _ => false
  end.

(** Whether a transaction is counted in what is spent on a budget: it
    is filed under the property key of the budget's category id. *)
Definition counts_towards {S} (budget : Budget.record S)
    (tx : Transaction.t) : bool :=
  filed_under (property_key (Budget.category_id budget)) tx.

(** The sum of the absolute amounts, added up from 0 in list order. *)
Definition sum_abs (txs : list Transaction.t) : number :=
  fold_left (λ acc tx, add acc (abs (Transaction.amount tx))) txs (lit 0).

Definition spent_on {S} (budget : Budget.record S)
    (txs : list Transaction.t) : number :=
  sum_abs (List.filter (counts_towards budget) txs).

(** [x || 0] for [x] a number or [undefined]. *)
Definition number_or_zero (x : option number) : number :=
  match x with
  | Some v => if JsNumber.truthy v then v else lit 0
  | None => lit 0
  end.

(** The entry of a key after the given transactions were filed under
    it, starting from the numeric entry [init]. *)
Definition accumulate (init : option number) (txs : list Transaction.t)
  : option number :=
  fold_left
    (λ acc tx, Some (add (number_or_zero acc) (abs (Transaction.amount tx))))
    txs init.

(** Two grocery rows, one from January 2020 and one from November 2024,
    and two budgets that start on 2024-11-01: the overall budget, without
    category, and the groceries budget. *)
Definition groceries_two_years_csv : string :=
  csv_of_lines
    [header_line;
     "2020-01-15,Albert Heijn,50.00,debit,Supermarkten,NL91RABO0315273637,Albert Heijn,boodschappen";
     "2024-11-05,Jumbo,30.00,debit,Supermarkten,NL91RABO0315273637,Jumbo,boodschappen"].

Definition overall_and_groceries : SeedData unit :=
  {| budgets :=
       [seed_budget (sample_budget None (lit 1000) (lit 0) None);
        seed_budget
          (sample_budget (Some "cat_supermarkets") (lit 400) (lit 0) None)];
     other := tt |}.

(** One small row filed under the leisure category, and a leisure
    budget of 49.99. *)
Definition subscription_csv : string :=
  csv_of_lines
    [header_line;
     "2024-11-03,Spotify,2.09,debit,Vrije tijd,NL91RABO0315273637,Spotify AB,abonnement"].

Definition leisure_budget : SeedData unit :=
  {| budgets :=
       [seed_budget
          (sample_budget (Some "cat_leisure") (parseFloat "49.99")
                         (lit 0) None)];
     other := tt |}.

(** A budget whose category id is the name of a member of
    [Object.prototype]. *)
Definition misfiled_budget : SeedData unit :=
  {| budgets :=
       [seed_budget
          (sample_budget (Some "toString") (lit 100) (lit 0) None)];
     other := tt |}.

(** Whether the loop body succeeds on a data line: the line has a
    fourth field. *)
Definition row_parses (line : string) : bool :=
  (4 <=? length (split "," line))%nat.


(** A groceries file in which the amount of the second row cannot be
    read. *)
Definition unreadable_amount_csv : string :=
  csv_of_lines
    [header_line;
     "2024-11-02,Albert Heijn,12.50,debit,Supermarkten,NL91RABO0315273637,Albert Heijn,boodschappen";
     "2024-11-03,Jumbo,n/a,debit,Supermarkten,NL91RABO0315273637,Jumbo,boodschappen";
     "2024-11-05,PLUS,30.00,debit,Supermarkten,NL91RABO0315273637,PLUS,boodschappen"].

Definition groceries_only : SeedData unit :=
  {| budgets :=
       [seed_budget
          (sample_budget (Some "cat_supermarkets") (lit 400) (lit 0) None)];
     other := tt |}.

End ImportNotions.

(** * Properties *)

(** ** Comparisons and [Math.min] *)

Section NumberFacts.
Import JsNumber.

Lemma lt_implies_le (a b : number) : lt a b = true → le a b = true.
Proof.
  unfold lt, le, SFltb, SFleb.
  destruct (SFcompare a b) as [[]|]; congruence.
Qed.

Lemma gt_nan_false (a : number) : gt NaN a = false.
Proof. unfold gt, lt, SFltb. destruct a; reflexivity. Qed.

Lemma ge_nan_false (a : number) : ge NaN a = false.
Proof. unfold ge, SFleb. destruct a; reflexivity. Qed.

(** [Math.min(a, b)] is NaN, [a] or [b]; it is [b] when [b < a], and it
    is [a] when [b < a] fails and [b] is not a zero. *)
Lemma min_cases (a b : number) :
  (is_nan a || is_nan b = true ∧ min a b = NaN)
  ∨ (is_nan a = false ∧ lt b a = true ∧ min a b = b)
  ∨ (is_nan a = false ∧ lt b a = false ∧ min a b = a)
  ∨ (∃ s, b = S754_zero s ∧ min a b = b).
Proof.
  unfold min.
  destruct (is_nan a) eqn:Ha; [left; auto|].
  destruct (is_nan b) eqn:Hb; [left; auto|]. simpl.
  destruct (lt b a) eqn:Hlt; [right; left; auto|].
  destruct a as [[]| | |]; try (right; right; left; auto; fail).
  destruct b as [[]| | |]; try (right; right; left; auto; fail).
  right; right; right. eauto.
Qed.

Lemma min_lit_100_not_above (p : number) :
  gt (min p (lit 100)) (lit 100) = false.
Proof.
  destruct (min_cases p (lit 100)) as [[_ ->]|[(_ & _ & ->)|[(_ & H & ->)|(s & Hs & _)]]].
  - apply gt_nan_false.
  - reflexivity.
  - exact H.
  - discriminate Hs.
Qed.

(** Capping at 100 does not change on which side of a bound at most
    100 a percentage lies. *)
Lemma ge_min_lit_100 (p bound : number) :
  ge (lit 100) bound = true →
  (lt (lit 100) p = true → ge p bound = true) →
  ge (min p (lit 100)) bound = ge p bound.
Proof.
  intros Hb Hp.
  destruct (min_cases p (lit 100)) as [[Hn ->]|[(_ & H & ->)|[(_ & H & ->)|(s & Hs & _)]]].
  - destruct p; simpl in Hn; try discriminate Hn.
    reflexivity.
  - rewrite Hb. symmetry. auto.
  - reflexivity.
  - discriminate Hs.
Qed.

End NumberFacts.

(** ** The budget page *)

Section BudgetsPageFacts.
Import JsNumber BudgetsPage.

(** C10.  The progress percentage is 0 when the budget's amount is at
    most 0, so that no division by a non-positive amount is made;
    otherwise it is [min (spent / amount * 100) 100]; and in every case
    it is not greater than 100. *)
Theorem getProgressPercentage_clamped (budget : Budget.t) :
  getProgressPercentage budget
  = (if le (Budget.amount budget) (lit 0) then lit 0
     else min (raw_percentage budget) (lit 100))
  ∧ gt (getProgressPercentage budget) (lit 100) = false.
Proof.
  split; [reflexivity|].
  unfold getProgressPercentage.
  destruct (le (Budget.amount budget) (lit 0)).
  - reflexivity.
  - apply min_lit_100_not_above.
Qed.

Lemma status_text_warning (budget : Budget.t) :
  text (getBudgetStatus budget) = "Waarschuwing"
  ↔ ge (getProgressPercentage budget) (lit 80) = true
    ∧ ge (getProgressPercentage budget) (lit 100) = false.
Proof.
  unfold getBudgetStatus.
  destruct (ge (getProgressPercentage budget) (lit 100)) eqn:H100;
    [simpl; split; [discriminate | intros [_ ?]; discriminate]|].
  destruct (ge (getProgressPercentage budget) (lit 80)) eqn:H80;
    [simpl; tauto|].
  destruct (ge (getProgressPercentage budget) (lit 50)); simpl;
    (split; [discriminate | intros [? _]; discriminate]).
Qed.

Lemma above_100_above_80 (p : number) :
  lt (lit 100) p = true → ge p (lit 80) = true.
Proof.
  unfold lt, ge, SFltb, SFleb.
  destruct p as [s|[]| |[] m e]; try (vm_compute; congruence).
  change (lit 100) with (S754_finite false 7036874417766400 (-46)).
  change (lit 80) with (S754_finite false 5629499534213120 (-46)).
  cbn [SFcompare].
  destruct (Z.compare_spec (-46) e) as [He|He|He]; try congruence.
  rewrite !Pos.compare_cont_spec. cbn [Pos.switch_Eq].
  destruct (Pos.compare_spec 7036874417766400 m) as [Hm|Hm|Hm];
    cbn [Pos.switch_Eq]; try discriminate.
  intros _.
  destruct (Pos.compare_spec 5629499534213120 m) as [Hm'|Hm'|Hm'];
    cbn [Pos.switch_Eq]; try reflexivity.
  pose proof (Pos.lt_trans _ _ _ Hm Hm') as Habs.
  vm_compute in Habs. discriminate Habs.
Qed.

Lemma ge_percentage (budget : Budget.t) (bound : number) :
  ge (lit 100) bound = true →
  gt bound (lit 0) = true →
  (∀ p, lt (lit 100) p = true → ge p bound = true) →
  ge (getProgressPercentage budget) bound
  = negb (le (Budget.amount budget) (lit 0))
    && ge (raw_percentage budget) bound.
Proof.
  intros Hb Hpos Hp. unfold getProgressPercentage.
  fold (raw_percentage budget).
  destruct (le (Budget.amount budget) (lit 0)); simpl.
  - revert Hpos. unfold ge, gt, lt, SFleb, SFltb.
    destruct bound as [s|[]| |[] m e]; vm_compute; congruence.
  - apply ge_min_lit_100; [exact Hb | apply Hp].
Qed.

Lemma ge_percentage_80 (budget : Budget.t) :
  ge (getProgressPercentage budget) (lit 80)
  = negb (le (Budget.amount budget) (lit 0))
    && ge (raw_percentage budget) (lit 80).
Proof.
  apply ge_percentage; [reflexivity | reflexivity |].
  apply above_100_above_80.
Qed.

Lemma ge_percentage_100 (budget : Budget.t) :
  ge (getProgressPercentage budget) (lit 100)
  = negb (le (Budget.amount budget) (lit 0))
    && ge (raw_percentage budget) (lit 100).
Proof.
  apply ge_percentage; [reflexivity | reflexivity |].
  intros p. apply lt_implies_le.
Qed.

(** C3 (amended).  The status of a budget is recomputed from the budget
    alone.  It is the warning state exactly when the amount is not at
    most 0 and [80 <= spent / amount * 100 < 100]: the bound is the
    fixed 80 percent, and the budget's own [notification_threshold]
    plays no part. *)
Theorem warning_state_fixed_bound (budget : Budget.t) :
  (text (getBudgetStatus budget) = "Waarschuwing"
   ↔ le (Budget.amount budget) (lit 0) = false
     ∧ ge (raw_percentage budget) (lit 80) = true
     ∧ ge (raw_percentage budget) (lit 100) = false)
  ∧ (∀ th, getBudgetStatus (Budget.with_threshold budget th)
           = getBudgetStatus budget).
Proof.
  split; [|reflexivity].
  rewrite status_text_warning, ge_percentage_80, ge_percentage_100.
  destruct (le (Budget.amount budget) (lit 0)); simpl.
  - split; [intros [? _]; discriminate | intros [? _]; discriminate].
  - tauto.
Qed.

(** C3 (counterexample).  With 60 of 100 spent and a threshold of 0.5
    the ratio has reached the threshold, yet the status is not the
    warning state; with 85 of 100 spent and a threshold of 0.9 the
    ratio is below the threshold, yet the status is the warning
    state. *)
Lemma warning_state_ignores_threshold :
  let half := JsString.parseFloat "0.5" in
  let b1 := sample_budget None (lit 100) (lit 60) (Some half) in
  let nine_tenths := JsString.parseFloat "0.9" in
  let b2 := sample_budget None (lit 100) (lit 85) (Some nine_tenths) in
  (ge (div (Budget.spent b1) (Budget.amount b1)) half = true
   ∧ text (getBudgetStatus b1) = "Op Goed Weg")
  ∧ (ge (div (Budget.spent b2) (Budget.amount b2)) nine_tenths = false
     ∧ text (getBudgetStatus b2) = "Waarschuwing").
Proof. vm_compute. repeat split. Qed.

Section HandlerFacts.
Variable Backend : Type.
Variable create : BudgetFormData → Backend → option Budget.t * Backend.
Variable update :
  string → BudgetFormData → Backend → option Budget.t * Backend.
Variable today : string.

(** C9.  With an amount of at most 0 in the form, creating and
    updating a budget both stop at the validation message: the
    backend is not called and is left as it was, and the list of
    budgets is unchanged. *)
Theorem nonpositive_amount_rejected (st : State) (backend : Backend) :
  le (amount (formData st)) (lit 0) = true →
  handleCreateBudget Backend create today st backend
  = (setError validation_message st, backend)
  ∧ handleUpdateBudget Backend update today st backend
    = (setError validation_message st, backend)
  ∧ budgets (setError validation_message st) = budgets st
  ∧ error (setError validation_message st) = Some validation_message.
Proof.
  intros Hamount.
  assert (Hinvalid : invalid_form (formData st) = true).
  { unfold invalid_form. rewrite Hamount. apply orb_true_r. }
  unfold handleCreateBudget, handleUpdateBudget. rewrite Hinvalid.
  repeat split. destruct (editingBudget st); reflexivity.
Qed.

End HandlerFacts.

Lemma nonpositive_amount_rejected_witness :
  let stored := [sample_budget (Some "cat-1") (lit 100) (lit 60) None] in
  le (amount (formData editing_state)) (lit 0) = true
  ∧ handleCreateBudget _ store_create "2024-11-14" editing_state stored
  = (setError validation_message editing_state, stored)
  ∧ handleUpdateBudget _ store_update "2024-11-14" editing_state stored
    = (setError validation_message editing_state, stored)
  ∧ budgets (setError validation_message editing_state)
    = budgets editing_state
  ∧ error (setError validation_message editing_state)
    = Some validation_message.
Proof.
  split; [reflexivity|].
  apply (nonpositive_amount_rejected (list Budget.t) store_create
           store_update "2024-11-14" editing_state).
  reflexivity.
Defined.

End BudgetsPageFacts.

(** ** The import script: rows *)

Section ImportRows.
Import JsNumber JsString JsObject ImportScript.

Lemma category_table_ids_truthy (k c : string) :
  categoryMap !! k = Some c → JsString.truthy c = true.
Proof.
  intros Hc. unfold categoryMap in Hc.
  apply elem_of_list_to_map_2 in Hc.
  unfold category_table in Hc.
  repeat (apply elem_of_cons in Hc as [[= _ ->]|Hc]; [reflexivity|]).
  inversion Hc.
Qed.

(** [mapCategory] in terms of the table and of the names inherited from
    [Object.prototype]. *)
Lemma mapCategory_lookup (name : option string) :
  mapCategory name
  = match categoryMap !! property_key name with
    | Some cat => category cat
    | None =>
        if inherited (property_key name)
        then category_member (property_key name)
        else no_category
    end.
Proof.
  unfold mapCategory, get.
  pose proof (category_table_ids_truthy (property_key name)) as Hids.
  revert Hids. generalize categoryMap. intros o Hids.
  destruct (o !! property_key name) as [c|] eqn:Hc.
  - rewrite (Hids _ eq_refl). reflexivity.
  - destruct (inherited (property_key name)); reflexivity.
Qed.

(** The fields of a transaction in terms of the comma-separated values
    of its line. *)
Lemma parse_line_fields (clock : Clock) (i : nat) (line : string)
    (tx : Transaction.t) (clock' : Clock) :
  parse_line clock i line = Ok (tx, clock') →
  let values := split "," line in
  Transaction.id tx = transaction_id (readings clock (cursor clock)) i
  ∧ Transaction.date tx = values !! 0%nat
  ∧ Transaction.description tx = values !! 1%nat
  ∧ Transaction.amount tx
    = match values !! 2%nat with Some v => parseFloat v | None => NaN end
  ∧ (∃ direction, values !! 3%nat = Some direction
      ∧ Transaction.transaction_type tx
        = if String.eqb (toLowerCase direction) "credit"
          then credit else debit)
  ∧ Transaction.category_id tx = mapCategory (values !! 4%nat).
Proof.
  unfold parse_line. cbn zeta.
  destruct (read_clock clock) as [now c1] eqn:Hnow.
  destruct (split "," line !! 3%nat) as [direction|] eqn:Hdir;
    cbn [mbind mret outcome_bind outcome_ret]; [|discriminate].
  destruct (read_clock c1) as [created c2].
  destruct (read_clock c2) as [updated c3].
  intros [= <- <-].
  cbn [Transaction.id Transaction.date Transaction.description
       Transaction.amount Transaction.transaction_type
       Transaction.category_id].
  unfold read_clock in Hnow. injection Hnow as <- _.
  repeat split; eauto.
Qed.

(** A line that is parsed under one clock and index is parsed under any
    other, with the same content. *)
Lemma parse_line_again (clock : Clock) (i : nat) (line : string)
    (tx : Transaction.t) (clock' : Clock) (clock2 : Clock) (j : nat) :
  parse_line clock i line = Ok (tx, clock') →
  ∃ tx2 clock2', parse_line clock2 j line = Ok (tx2, clock2')
                 ∧ row_content tx2 = row_content tx.
Proof.
  unfold parse_line. cbn zeta.
  destruct (read_clock clock) as [now c1].
  destruct (read_clock clock2) as [now2 d1].
  destruct (split "," line !! 3%nat) as [direction|];
    cbn [mbind mret outcome_bind outcome_ret]; [|discriminate].
  destruct (read_clock c1) as [created c2].
  destruct (read_clock c2) as [updated c3].
  destruct (read_clock d1) as [created2 d2].
  destruct (read_clock d2) as [updated2 d3].
  intros [= <- <-]. eexists _, _. split; reflexivity.
Qed.

Lemma parse_lines_again (lines : list string) :
  ∀ (clock : Clock) (i : nat) (txs : list Transaction.t) (clock' : Clock)
    (clock2 : Clock) (j : nat),
    parse_lines clock i lines = Ok (txs, clock') →
    ∃ txs2 clock2', parse_lines clock2 j lines = Ok (txs2, clock2')
                    ∧ List.map row_content txs2 = List.map row_content txs.
Proof.
  induction lines as [|raw rest IH]; intros clock i txs clock' clock2 j.
  - intros [= <- <-]. eexists _, _. split; reflexivity.
  - simpl. destruct (is_empty (trim raw)); [apply IH|].
    destruct (parse_line clock i (trim raw)) as [[tx c1]|e] eqn:Hline;
      simpl; [|discriminate].
    destruct (parse_lines c1 (S i) rest) as [[txs' c2]|e] eqn:Hrest;
      simpl; [|discriminate].
    intros [= <- <-].
    destruct (parse_line_again _ _ _ _ _ clock2 j Hline)
      as (tx2 & d1 & Hline2 & Hcontent).
    destruct (IH _ _ _ _ d1 (S j) Hrest) as (txs2 & d2 & Hrest2 & Hcontents).
    rewrite Hline2. simpl. rewrite Hrest2. simpl.
    eexists _, _. split; [reflexivity|].
    simpl. congruence.
Qed.

(** The transactions of a run are those of the data lines, one per
    line and in the same order. *)
Lemma parse_lines_rows (lines : list string) :
  ∀ (clock : Clock) (i : nat) (txs : list Transaction.t) (clock' : Clock),
    parse_lines clock i lines = Ok (txs, clock') →
    Forall2 (λ line tx, ∃ c0 i0 c1, parse_line c0 i0 line = Ok (tx, c1))
            (List.filter (λ line, negb (is_empty line))
                         (List.map trim lines))
            txs.
Proof.
  induction lines as [|raw rest IH]; intros clock i txs clock'.
  - intros [= <- <-]. constructor.
  - simpl. destruct (is_empty (trim raw)); simpl; [apply IH|].
    destruct (parse_line clock i (trim raw)) as [[tx c1]|e] eqn:Hline;
      simpl; [|discriminate].
    destruct (parse_lines c1 (S i) rest) as [[txs' c2]|e] eqn:Hrest;
      simpl; [|discriminate].
    intros [= <- <-]. constructor; eauto.
Qed.

Lemma parseCsvToTransactions_rows (csvContent : string) (clock : Clock)
    (txs : list Transaction.t) (clock' : Clock) :
  parseCsvToTransactions csvContent clock = Ok (txs, clock') →
  Forall2 (λ line tx, ∃ c0 i0 c1, parse_line c0 i0 line = Ok (tx, c1))
          (data_lines csvContent) txs.
Proof. apply parse_lines_rows. Qed.

(** C1 (amended).  A file that is imported once is imported again by a
    second run, whatever the clock: the second run succeeds and yields
    as many transactions as the first, row for row with the same
    content; none is recognised as a duplicate or left out. *)
Theorem import_repeats_rows (csvContent : string) (clock clock2 : Clock)
    (txs : list Transaction.t) (clock' : Clock) :
  parseCsvToTransactions csvContent clock = Ok (txs, clock') →
  ∃ txs2 clock2',
    parseCsvToTransactions csvContent clock2 = Ok (txs2, clock2')
    ∧ length txs2 = length txs
    ∧ List.map row_content txs2 = List.map row_content txs.
Proof.
  intros Hfirst. unfold parseCsvToTransactions in *.
  destruct (parse_lines_again _ _ _ _ _ clock2 1%nat Hfirst)
    as (txs2 & clock2' & Hsecond & Hcontent).
  assert (Hlen : length txs2 = length txs).
  { rewrite <- (length_map row_content txs2), Hcontent.
    apply length_map. }
  exists txs2, clock2'. repeat split; [exact Hsecond|exact Hlen|exact Hcontent].
Qed.

Lemma import_repeats_rows_witness :
  let first := ([{| Transaction.id := "txn_1731575000000_1";
                   Transaction.date := Some "2024-09-02";
                   Transaction.description := Some "Albert Heijn";
                   Transaction.amount := parseFloat "87.45";
                   Transaction.transaction_type := debit;
                   Transaction.category_id := category "cat_supermarkets";
                   Transaction.account_number := Some "NL91RABO0315273637";
                   Transaction.account_holder := Some "Albert Heijn";
                   Transaction.tags := ["boodschappen"];
                   Transaction.notes := "";
                   Transaction.is_recurring := false;
                   Transaction.created_at := 1731575000000;
                   Transaction.updated_at := 1731575000000 |}],
                {| readings := λ _, 1731575000000%N; cursor := 3 |}) in
  parseCsvToTransactions groceries_csv (fixed_clock 1731575000000)
  = Ok first
  ∧ ∃ txs2 clock2',
      parseCsvToTransactions groceries_csv (fixed_clock 1731575060000)
      = Ok (txs2, clock2')
      ∧ length txs2 = length first.1
      ∧ List.map row_content txs2 = List.map row_content first.1.
Proof.
  intros first.
  assert (Hfirst : parseCsvToTransactions groceries_csv
                     (fixed_clock 1731575000000) = Ok first)
    by (vm_compute; reflexivity).
  split; [exact Hfirst|].
  exact (import_repeats_rows groceries_csv (fixed_clock 1731575000000)
           (fixed_clock 1731575060000) first.1 first.2 Hfirst).
Defined.

(** C1 (counterexample).  The file is imported a first time, one
    transaction; importing the same file a second time yields one
    transaction again, not zero: the same row, under another id. *)
Lemma second_import_duplicates :
  ∃ t1 c1 t2 c2,
    parseCsvToTransactions groceries_csv (fixed_clock 1731575000000)
    = Ok ([t1], c1)
    ∧ parseCsvToTransactions groceries_csv (fixed_clock 1731575060000)
      = Ok ([t2], c2)
    ∧ length [t2] ≠ 0%nat
    ∧ row_content t2 = row_content t1
    ∧ Transaction.id t1 = "txn_1731575000000_1"
    ∧ Transaction.id t2 = "txn_1731575060000_1".
Proof.
  eexists _, _, _, _.
  split; [vm_compute; reflexivity|].
  split; [vm_compute; reflexivity|].
  repeat split. discriminate.
Qed.

(** C7 (amended).  The type of every parsed transaction is decided by
    the fourth field of its line alone: it is debit exactly when that
    field, in lower case, is not the word credit.  The amount and its
    sign are not consulted. *)
Theorem transaction_type_from_fourth_field (csvContent : string)
    (clock : Clock) (txs : list Transaction.t) (clock' : Clock) :
  parseCsvToTransactions csvContent clock = Ok (txs, clock') →
  Forall2
    (λ line tx,
       ∃ direction, split "," line !! 3%nat = Some direction
         ∧ (Transaction.transaction_type tx = debit
            ↔ toLowerCase direction ≠ "credit"))
    (data_lines csvContent) txs.
Proof.
  intros Hrun. apply parseCsvToTransactions_rows in Hrun.
  eapply Forall2_impl; [exact Hrun|].
  intros line tx (c0 & i0 & c1 & Hline).
  apply parse_line_fields in Hline
    as (_ & _ & _ & _ & (direction & Hdir & Htype) & _).
  exists direction. split; [exact Hdir|]. rewrite Htype.
  destruct (String.eqb_spec (toLowerCase direction) "credit") as [->|Hne].
  - split; [discriminate | congruence].
  - tauto.
Qed.

Lemma transaction_type_from_fourth_field_witness :
  ∃ tx clock',
    parseCsvToTransactions salary_csv (fixed_clock 1731575000000)
    = Ok ([tx], clock')
    ∧ Forall2
        (λ line tx,
           ∃ direction, split "," line !! 3%nat = Some direction
             ∧ (Transaction.transaction_type tx = debit
                ↔ toLowerCase direction ≠ "credit"))
        (data_lines salary_csv) [tx].
Proof.
  eexists _, _.
  assert (Hrun : parseCsvToTransactions salary_csv
                   (fixed_clock 1731575000000)
                 = Ok ([_], _)) by (vm_compute; reflexivity).
  split; [exact Hrun|].
  exact (transaction_type_from_fourth_field _ _ _ _ Hrun).
Defined.

(** C7 (counterexample).  A salary row whose direction field says Bij
    (credit) and whose amount is positive becomes a debit
    transaction. *)
Lemma credit_row_typed_debit :
  ∃ tx clock',
    parseCsvToTransactions salary_csv (fixed_clock 1731575000000)
    = Ok ([tx], clock')
    ∧ split "," (nth 0 (data_lines salary_csv) "") !! 3%nat = Some "Bij"
    ∧ Transaction.amount tx = parseFloat "2800.00"
    ∧ lt (Transaction.amount tx) (lit 0) = false
    ∧ Transaction.transaction_type tx = debit.
Proof.
  eexists _, _. split; [vm_compute; reflexivity|].
  vm_compute. repeat split.
Qed.

Lemma category_table_keys_NoDup : NoDup (category_table.*1).
Proof. apply (bool_decide_unpack _). vm_compute. reflexivity. Qed.

Lemma prototype_names_not_in_table (name : string) :
  name ∈ object_prototype_names → categoryMap !! name = None.
Proof.
  intros Hname. unfold object_prototype_names in Hname.
  repeat (apply elem_of_cons in Hname as [->|Hname];
          [vm_compute; reflexivity|]).
  inversion Hname.
Qed.

(** C5 (amended).  The category of every parsed transaction is looked
    up from the fifth field of its line: it is the id listed for that
    name in the table of [mapCategory]; it is the inherited member when
    the name is not listed and is the name of a member of
    [Object.prototype]; and it is null for every other name.  There is
    no fallback category and no confidence. *)
Theorem category_from_fifth_field (csvContent : string)
    (clock : Clock) (txs : list Transaction.t) (clock' : Clock) :
  parseCsvToTransactions csvContent clock = Ok (txs, clock') →
  Forall2
    (λ line tx,
       let name := property_key (split "," line !! 4%nat) in
       (∀ cat, Transaction.category_id tx = category cat
               ↔ (name, cat) ∈ category_table)
       ∧ (∀ member, Transaction.category_id tx = category_member member
                    ↔ member = name ∧ name ∈ object_prototype_names)
       ∧ (Transaction.category_id tx = no_category
          ↔ (name ∉ category_table.*1) ∧ (name ∉ object_prototype_names)))
    (data_lines csvContent) txs.
Proof.
  intros Hrun. apply parseCsvToTransactions_rows in Hrun.
  eapply Forall2_impl; [exact Hrun|].
  intros line tx (c0 & i0 & c1 & Hline).
  apply parse_line_fields in Hline as (_ & _ & _ & _ & _ & Hcat).
  cbn zeta. rewrite Hcat, mapCategory_lookup.
  set (name := property_key (split "," line !! 4%nat)).
  pose proof (prototype_names_not_in_table name) as Hproto.
  pose proof (λ cat, elem_of_list_to_map (M := gmap string) category_table
                       name cat category_table_keys_NoDup) as Hlisted.
  pose proof (not_elem_of_list_to_map (M := gmap string) category_table name)
    as Hunlisted.
  fold categoryMap in Hlisted, Hunlisted.
  unfold inherited.
  destruct (categoryMap !! name) as [c|] eqn:Hc.
  - assert (Hnotproto : name ∉ object_prototype_names)
      by (intros Hin; specialize (Hproto Hin); discriminate).
    assert (Hin : name ∈ category_table.*1)
      by (destruct (decide (name ∈ category_table.*1)) as [|Hn];
          [assumption | apply Hunlisted in Hn; discriminate]).
    split; [|split].
    + intros cat. rewrite Hlisted. split; congruence.
    + intros member. split; [discriminate | tauto].
    + split; [discriminate | tauto].
  - assert (Hout : name ∉ category_table.*1) by (apply Hunlisted; reflexivity).
    split; [|split].
    + intros cat. rewrite Hlisted.
      case_bool_decide; split; discriminate.
    + intros member. case_bool_decide; split.
      * intros [= <-]. tauto.
      * intros [-> _]. reflexivity.
      * discriminate.
      * tauto.
    + case_bool_decide; split.
      * discriminate.
      * tauto.
      * tauto.
      * reflexivity.
Qed.

Lemma category_from_fifth_field_witness :
  ∃ tx clock',
    parseCsvToTransactions gift_csv (fixed_clock 1731575000000)
    = Ok ([tx], clock')
    ∧ Forall2
        (λ line tx,
           let name := property_key (split "," line !! 4%nat) in
           (∀ cat, Transaction.category_id tx = category cat
                   ↔ (name, cat) ∈ category_table)
           ∧ (∀ member, Transaction.category_id tx = category_member member
                        ↔ member = name ∧ name ∈ object_prototype_names)
           ∧ (Transaction.category_id tx = no_category
              ↔ (name ∉ category_table.*1) ∧ (name ∉ object_prototype_names)))
        (data_lines gift_csv) [tx].
Proof.
  eexists _, _.
  assert (Hrun : parseCsvToTransactions gift_csv
                   (fixed_clock 1731575000000)
                 = Ok ([_], _)) by (vm_compute; reflexivity).
  split; [exact Hrun|].
  exact (category_from_fifth_field _ _ _ _ Hrun).
Defined.

(** C5 (counterexample).  A row whose category is not in the table
    leaves the categorization stage with [category_id] null. *)
Lemma unknown_category_left_null :
  mapCategory (Some "Overig") = no_category
  ∧ ∃ tx clock',
      parseCsvToTransactions gift_csv (fixed_clock 1731575000000)
      = Ok ([tx], clock')
      ∧ split "," (nth 0 (data_lines gift_csv) "") !! 4%nat = Some "Overig"
      ∧ Transaction.category_id tx = no_category.
Proof.
  split; [vm_compute; reflexivity|].
  eexists _, _. split; [vm_compute; reflexivity|].
  vm_compute. split; reflexivity.
Qed.

End ImportRows.

(** ** The import script: amounts *)

Section AmountFacts.
Import JsNumber JsString JsObject ImportScript.

Lemma split_fields_no_sep (sep : ascii) (s : string) :
  ∀ field, field ∈ split sep s → has_char sep field = false.
Proof.
  induction s as [|c rest IH]; intros field Hin.
  - apply list_elem_of_singleton in Hin as ->. reflexivity.
  - simpl in Hin. destruct (Ascii.eqb c sep) eqn:Hc.
    + apply elem_of_cons in Hin as [->|Hin]; [reflexivity | auto].
    + destruct (split sep rest) as [|first others] eqn:Hsplit.
      * apply list_elem_of_singleton in Hin as ->. simpl. rewrite Hc. reflexivity.
      * apply elem_of_cons in Hin as [->|Hin].
        -- simpl. rewrite Hc. simpl. apply IH. left.
        -- apply IH. right. exact Hin.
Qed.

Lemma digit_char_facts (c : ascii) :
  is_digit c = true →
  is_space c = false
  ∧ read_sign (String c EmptyString) = (false, String c EmptyString)
  ∧ Ascii.eqb "I" c = false.
Proof.
  destruct c as [[] [] [] [] [] [] [] []]; intros H;
    try discriminate H; repeat split.
Qed.

Lemma read_sign_digit (c : ascii) (rest : string) :
  is_digit c = true → read_sign (String c rest) = (false, String c rest).
Proof.
  destruct c as [[] [] [] [] [] [] [] []]; intros H;
    try discriminate H; reflexivity.
Qed.

Lemma append_String (c : ascii) (s t : string) :
  String c s +:+ t = String c (s +:+ t).
Proof. reflexivity. Qed.

Lemma append_empty_l (t : string) : EmptyString +:+ t = t.
Proof. reflexivity. Qed.

Lemma append_empty_r (s : string) : s +:+ EmptyString = s.
Proof.
  induction s as [|c s IH]; [reflexivity|].
  rewrite append_String, IH. reflexivity.
Qed.

Lemma span_digits_app (ds : list ascii) (rest : string) :
  forallb is_digit ds = true →
  match rest with String c _ => is_digit c = false | EmptyString => True end →
  span_digits (string_of_list_ascii ds +:+ rest) = (ds, rest).
Proof.
  intros Hds Hrest. induction ds as [|d ds IH];
    cbn [string_of_list_ascii].
  - rewrite append_empty_l.
    destruct rest as [|c r]; [reflexivity|]. simpl. rewrite Hrest. reflexivity.
  - simpl in Hds. apply andb_true_iff in Hds as [Hd Hds].
    rewrite append_String. cbn [span_digits].
    rewrite Hd, (IH Hds). reflexivity.
Qed.

(** A run of digits, a dot and a run of digits is read as the decimal
    literal with that integer part and that fraction. *)
Lemma parseFloat_decimal (int_digits frac_digits : list ascii) :
  forallb is_digit int_digits = true →
  forallb is_digit frac_digits = true →
  int_digits ++ frac_digits ≠ [] →
  parseFloat (string_of_list_ascii int_digits +:+ "."
              +:+ string_of_list_ascii frac_digits)
  = of_decimal false (digits_value (int_digits ++ frac_digits))
                     (- Z.of_nat (length frac_digits)).
Proof.
  intros Hint Hfrac Hne. unfold parseFloat.
  set (body := string_of_list_ascii int_digits +:+ "."
               +:+ string_of_list_ascii frac_digits).
  assert (Hstart : read_sign (trim_start body) = (false, body)
                   ∧ strip_prefix "Infinity" body = None).
  { subst body. destruct int_digits as [|d ds]; [split; reflexivity|].
    simpl in Hint. apply andb_true_iff in Hint as [Hd _].
    destruct (digit_char_facts d Hd) as (Hspace & _ & HI).
    cbn [string_of_list_ascii]. rewrite append_String.
    cbn [trim_start strip_prefix].
    rewrite Hspace, HI, (read_sign_digit d _ Hd). split; reflexivity. }
  destruct Hstart as [-> ->].
  subst body.
  rewrite (span_digits_app int_digits
             ("." +:+ string_of_list_ascii frac_digits) Hint eq_refl).
  rewrite append_String, append_empty_l.
  assert (Hspan : span_digits (string_of_list_ascii frac_digits)
                  = (frac_digits, EmptyString)).
  { rewrite <- (span_digits_app frac_digits EmptyString Hfrac I).
    rewrite append_empty_r. reflexivity. }
  rewrite Hspan.
  destruct (int_digits ++ frac_digits) as [|d ds] eqn:Hds; [congruence|].
  reflexivity.
Qed.

(** C6 (amended).  The amount of every parsed transaction is
    [parseFloat] of the third comma-separated field of its line (NaN
    when the line has no third field).  The field never holds a comma,
    and a dot in it is the decimal point: digits, a dot and digits are
    read as that decimal literal, rounded to a binary64 number. *)
Theorem amount_is_parseFloat_of_third_field (csvContent : string)
    (clock : Clock) (txs : list Transaction.t) (clock' : Clock) :
  parseCsvToTransactions csvContent clock = Ok (txs, clock') →
  Forall2
    (λ line tx,
       match split "," line !! 2%nat with
       | Some field =>
           has_char "," field = false
           ∧ Transaction.amount tx = parseFloat field
           ∧ ∀ int_digits frac_digits,
               forallb is_digit int_digits = true →
               forallb is_digit frac_digits = true →
               int_digits ++ frac_digits ≠ [] →
               field = string_of_list_ascii int_digits +:+ "."
                       +:+ string_of_list_ascii frac_digits →
               Transaction.amount tx
               = of_decimal false (digits_value (int_digits ++ frac_digits))
                                  (- Z.of_nat (length frac_digits))
       | None => Transaction.amount tx = NaN
       end)
    (data_lines csvContent) txs.
Proof.
  intros Hrun. apply parseCsvToTransactions_rows in Hrun.
  eapply Forall2_impl; [exact Hrun|].
  intros line tx (c0 & i0 & c1 & Hline).
  apply parse_line_fields in Hline as (_ & _ & _ & Hamount & _).
  cbn zeta in Hamount.
  destruct (split "," line !! 2%nat) as [field|] eqn:Hfield; [|exact Hamount].
  split; [|split; [exact Hamount|]].
  - eapply split_fields_no_sep, list_elem_of_lookup_2, Hfield.
  - intros ds1 ds2 H1 H2 Hne ->. rewrite Hamount.
    apply parseFloat_decimal; assumption.
Qed.

Lemma amount_is_parseFloat_of_third_field_witness :
  ∃ t1 t2 clock',
    parseCsvToTransactions dutch_csv (fixed_clock 1731575000000)
    = Ok ([t1; t2], clock')
    ∧ Forall2
        (λ line tx,
           match split "," line !! 2%nat with
           | Some field =>
               has_char "," field = false
               ∧ Transaction.amount tx = parseFloat field
               ∧ ∀ int_digits frac_digits,
                   forallb is_digit int_digits = true →
                   forallb is_digit frac_digits = true →
                   int_digits ++ frac_digits ≠ [] →
                   field = string_of_list_ascii int_digits +:+ "."
                           +:+ string_of_list_ascii frac_digits →
                   Transaction.amount tx
                   = of_decimal false
                       (digits_value (int_digits ++ frac_digits))
                       (- Z.of_nat (length frac_digits))
           | None => Transaction.amount tx = NaN
           end)
        (data_lines dutch_csv) [t1; t2].
Proof.
  eexists _, _, _.
  assert (Hrun : parseCsvToTransactions dutch_csv
                   (fixed_clock 1731575000000)
                 = Ok ([_; _], _)) by (vm_compute; reflexivity).
  split; [exact Hrun|].
  exact (amount_is_parseFloat_of_third_field _ _ _ _ Hrun).
Defined.

(** C6 (counterexample).  In a Dutch export the amount 87,45 is read as
    87 and the amount 1.200,00 as 1.2: the comma ends the field and the
    dot is kept as decimal point.  The second amount is a binary64
    number whose exact value is neither 1200 nor 12/10. *)
Lemma dutch_amounts_misread :
  ∃ t1 t2 clock',
    parseCsvToTransactions dutch_csv (fixed_clock 1731575000000)
    = Ok ([t1; t2], clock')
    ∧ Transaction.amount t1 = lit 87
    ∧ Transaction.amount t2 = S754_finite false 5404319552844595 (-52)
    ∧ exact_value (Transaction.amount t2)
      = Some (5404319552844595%Z, (2 ^ 52)%positive)
    ∧ (5404319552844595 ≠ 1200 * 2 ^ 52)%Z
    ∧ (5404319552844595 * 10 ≠ 12 * 2 ^ 52)%Z.
Proof.
  eexists _, _, _. split; [vm_compute; reflexivity|].
  vm_compute. repeat split; discriminate.
Qed.

End AmountFacts.

(** ** The import script: spending per category *)

Section SpendingFacts.
Import JsNumber JsString JsObject ImportScript.

Lemma shr_1_nonneg (r : shr_record) :
  (0 <= shr_m r)%Z → (0 <= shr_m (shr_1 r))%Z.
Proof.
  destruct r as [m r s]. destruct m as [|[p|p|]|[p|p|]]; simpl; lia.
Qed.

Lemma iter_shr_1_nonneg (p : positive) :
  ∀ r, (0 <= shr_m r)%Z → (0 <= shr_m (SpecFloat.iter_pos shr_1 p r))%Z.
Proof.
  induction p as [p IH|p IH|]; intros r Hr; simpl.
  - apply IH, IH, shr_1_nonneg, Hr.
  - apply IH, IH, Hr.
  - apply shr_1_nonneg, Hr.
Qed.

Lemma shr_fexp_nonneg (m e : Z) (l : location) :
  (0 <= m)%Z → (0 <= shr_m (shr_fexp prec emax m e l).1)%Z.
Proof.
  intros Hm. unfold shr_fexp, shr.
  assert (Hrec : (0 <= shr_m (shr_record_of_loc m l))%Z)
    by (destruct l as [|[]]; exact Hm).
  destruct (fexp prec emax (Zdigits2 m + e) - e)%Z; simpl;
    [exact Hrec | apply iter_shr_1_nonneg, Hrec | exact Hrec].
Qed.

Lemma round_nearest_even_nonneg (m : Z) (l : location) :
  (0 <= m)%Z → (0 <= round_nearest_even m l)%Z.
Proof.
  intros Hm. destruct l as [|[]]; simpl; [| destruct (Z.even m) | |]; lia.
Qed.

(** Rounding a non-negative mantissa with the sign bit clear gives a
    number that is neither negative nor NaN. *)
Lemma binary_round_aux_nonneg (mx ex : Z) (lx : location) :
  (0 <= mx)%Z → nonneg (binary_round_aux prec emax false mx ex lx) = true.
Proof.
  intros Hm. unfold binary_round_aux.
  pose proof (shr_fexp_nonneg mx ex lx Hm) as H1.
  destruct (shr_fexp prec emax mx ex lx) as [mrs' e']. simpl in H1.
  pose proof (shr_fexp_nonneg _ e' loc_Exact
                (round_nearest_even_nonneg _ (loc_of_shr_record mrs') H1))
    as H2.
  destruct (shr_fexp prec emax _ e' loc_Exact) as [mrs'' e'']. simpl in H2.
  destruct (shr_m mrs'') as [|m|m]; [reflexivity| |lia].
  destruct (e'' <=? emax - prec)%Z; reflexivity.
Qed.

Lemma add_nonneg (x y : number) :
  nonneg x = true → nonneg y = true → nonneg (add x y) = true.
Proof.
  destruct x as [[]|[]| |[] mx ex]; try discriminate;
    destruct y as [[]|[]| |[] my ey]; try discriminate;
    intros _ _; try reflexivity.
  unfold add, SFadd. cbn [cond_Zopp].
  generalize (shl_align mx ex (Z.min ex ey)).1
             (shl_align my ey (Z.min ex ey)).1.
  intros a b. change (Z.pos a + Z.pos b)%Z with (Z.pos (a + b)).
  unfold binary_normalize, binary_round.
  destruct (shl_align _ _ _) as [mz ez].
  apply binary_round_aux_nonneg. lia.
Qed.

Lemma abs_nan_or_nonneg (a : number) : nan_or_nonneg (abs a) = true.
Proof. destruct a as [[]|[]| |[] m e]; reflexivity. Qed.

Lemma abs_nonneg (a : number) : is_nan a = false → nonneg (abs a) = true.
Proof. destruct a as [[]|[]| |[] m e]; try reflexivity; discriminate. Qed.

Lemma add_nan_or_nonneg (x y : number) :
  nonneg x = true → nan_or_nonneg y = true → nan_or_nonneg (add x y) = true.
Proof.
  intros Hx Hy. unfold nan_or_nonneg in *.
  apply orb_true_iff in Hy as [Hy|Hy].
  - destruct y; try discriminate Hy. destruct x; reflexivity.
  - rewrite add_nonneg by assumption. apply orb_true_r.
Qed.

Lemma number_or_zero_nonneg (x : option number) :
  (∀ v, x = Some v → nan_or_nonneg v = true) →
  nonneg (number_or_zero x) = true.
Proof.
  intros Hx. destruct x as [v|]; [|reflexivity].
  specialize (Hx v eq_refl). destruct v as [[]|[]| |[] m e];
    try reflexivity; discriminate Hx.
Qed.

Lemma number_or_zero_of_nonneg (v : number) :
  nonneg v = true → number_or_zero (Some v) = v.
Proof. destruct v as [[]|[]| |[] m e]; try reflexivity; discriminate. Qed.

Lemma nonneg_ge_zero (v : number) : nonneg v = true → le (lit 0) v = true.
Proof. destruct v as [[]|[]| |[] m e]; try reflexivity; discriminate. Qed.

(** The entry of a key after one step, for a transaction whose key is
    not a name inherited from [Object.prototype]. *)
Lemma record_spending_lookup (m : gmap string Spent)
    (tx : Transaction.t) (k : string) :
  (∀ key, category_key (Transaction.category_id tx) = Some key →
          inherited key = false) →
  record_spending m tx !! k
  = if filed_under k tx
    then Some (plus (or_zero (get m k)) (abs (Transaction.amount tx)))
    else m !! k.
Proof.
  intros Hplain. unfold record_spending, filed_under.
  destruct (Transaction.transaction_type tx); [reflexivity|].
  destruct (category_key (Transaction.category_id tx)) as [key|];
    [|reflexivity].
  specialize (Hplain key eq_refl). unfold JsObject.set.
  destruct (String.eqb_spec key "__proto__") as [->|_];
    [discriminate Hplain|].
  destruct (String.eqb_spec key k) as [->|Hne].
  - apply lookup_insert_eq.
  - apply lookup_insert_ne, Hne.
Qed.

(** The entry of a key that is not an inherited name and that starts as
    a number, or with no entry, stays a number: the one that
    [accumulate] builds from the transactions filed under the key. *)
Lemma spending_of_lookup (txs : list Transaction.t) :
  Forall (λ tx, ∀ key, category_key (Transaction.category_id tx) = Some key
                       → inherited key = false) txs →
  ∀ (m : gmap string Spent) (k : string) (entry : option number),
    inherited k = false →
    m !! k = num <$> entry →
    spending_of m txs !! k
    = num <$> accumulate entry (List.filter (filed_under k) txs).
Proof.
  unfold spending_of.
  induction 1 as [|tx rest Htx _ IH]; intros m k entry Hk Hentry;
    [exact Hentry|].
  cbn [fold_left List.filter].
  pose proof (record_spending_lookup m tx k Htx) as Hstep.
  destruct (filed_under k tx).
  - apply IH; [exact Hk|]. rewrite Hstep. unfold get. rewrite Hentry, Hk.
    destruct entry as [v|]; cbn; [|reflexivity].
    destruct (JsNumber.truthy v); reflexivity.
  - apply IH; [exact Hk|]. rewrite Hstep. exact Hentry.
Qed.

(** A key under which no transaction is filed keeps its entry. *)
Lemma spending_of_untouched (txs : list Transaction.t) :
  Forall (λ tx, ∀ key, category_key (Transaction.category_id tx) = Some key
                       → inherited key = false) txs →
  ∀ (m : gmap string Spent) (k : string),
    Forall (λ tx, filed_under k tx = false) txs →
    spending_of m txs !! k = m !! k.
Proof.
  unfold spending_of.
  induction 1 as [|tx rest Htx _ IH]; intros m k Hnone; [reflexivity|].
  apply Forall_cons in Hnone as [Hhere Hrest].
  cbn [fold_left]. rewrite (IH _ _ Hrest).
  rewrite (record_spending_lookup m tx k Htx), Hhere. reflexivity.
Qed.

(** Every numeric entry is a sum of absolute values: NaN or not
    negative. *)
Lemma accumulate_entries (txs : list Transaction.t) :
  ∀ init, (∀ v, init = Some v → nan_or_nonneg v = true) →
    ∀ v, accumulate init txs = Some v → nan_or_nonneg v = true.
Proof.
  unfold accumulate.
  induction txs as [|tx rest IH]; intros init Hinit; [exact Hinit|].
  cbn [fold_left]. apply IH. intros v [= <-].
  apply add_nan_or_nonneg.
  - apply number_or_zero_nonneg, Hinit.
  - apply abs_nan_or_nonneg.
Qed.

Lemma accumulate_sum (txs : list Transaction.t) :
  Forall (λ tx, is_nan (Transaction.amount tx) = false) txs →
  ∀ init, (∀ v, init = Some v → nonneg v = true) →
    number_or_zero (accumulate init txs)
    = fold_left (λ acc tx, add acc (abs (Transaction.amount tx)))
                txs (number_or_zero init).
Proof.
  induction 1 as [|tx rest Htx Hrest IH]; intros init Hinit; [reflexivity|].
  assert (Hnext : nonneg (add (number_or_zero init)
                              (abs (Transaction.amount tx))) = true).
  { apply add_nonneg; [|apply abs_nonneg, Htx].
    apply number_or_zero_nonneg. intros v Hv. unfold nan_or_nonneg.
    rewrite (Hinit v Hv). apply orb_true_r. }
  unfold accumulate in *. simpl. rewrite IH.
  - rewrite number_or_zero_of_nonneg by exact Hnext. reflexivity.
  - intros v [= <-]. exact Hnext.
Qed.

(** The ids of the table are not empty, none is the word undefined and
    none is a name inherited from [Object.prototype]. *)
Lemma category_table_ids (name cat : string) :
  (name, cat) ∈ category_table →
  JsString.truthy cat = true ∧ inherited cat = false ∧ cat ≠ "undefined".
Proof.
  unfold category_table. intros Hin.
  repeat (apply elem_of_cons in Hin as [[= _ ->]|Hin];
          [split; [reflexivity|split; [reflexivity|discriminate]]|]).
  inversion Hin.
Qed.

(** Likewise for the strings of the members of [Object.prototype]. *)
Lemma member_text_keys (name : string) :
  name ∈ object_prototype_names →
  inherited (member_text name) = false ∧ member_text name ≠ "undefined".
Proof.
  unfold object_prototype_names. intros Hin.
  repeat (apply elem_of_cons in Hin as [->|Hin];
          [split; [reflexivity|discriminate]|]).
  inversion Hin.
Qed.

(** The property keys of the categories of parsed transactions. *)
Lemma parsed_categories (csvContent : string) (clock : Clock)
    (txs : list Transaction.t) (clock' : Clock) :
  parseCsvToTransactions csvContent clock = Ok (txs, clock') →
  Forall (λ tx, ∀ key, category_key (Transaction.category_id tx) = Some key
                       → inherited key = false ∧ key ≠ "undefined") txs.
Proof.
  intros Hrun. apply parseCsvToTransactions_rows in Hrun.
  induction Hrun as [|line tx lines txs (c0 & i0 & c1 & Hline) _ IH];
    constructor; [|exact IH].
  apply parse_line_fields in Hline as (_ & _ & _ & _ & _ & Hcat).
  cbn zeta in Hcat. rewrite Hcat, mapCategory_lookup.
  intros key.
  destruct (categoryMap !! _) as [cat|] eqn:Hlisted.
  - apply elem_of_list_to_map_2, category_table_ids in Hlisted
      as (Htruthy & Hplain & Hundef).
    cbn. rewrite Htruthy. intros [= <-]. split; assumption.
  - unfold inherited at 1. case_bool_decide as Hmember; [|discriminate].
    cbn. intros [= <-]. apply member_text_keys, Hmember.
Qed.

Lemma parsed_categories_plain (csvContent : string) (clock : Clock)
    (txs : list Transaction.t) (clock' : Clock) :
  parseCsvToTransactions csvContent clock = Ok (txs, clock') →
  Forall (λ tx, ∀ key, category_key (Transaction.category_id tx) = Some key
                       → inherited key = false) txs.
Proof.
  intros Hrun. eapply Forall_impl; [exact (parsed_categories _ _ _ _ Hrun)|].
  intros tx Htx key Hkey. apply (Htx key Hkey).
Qed.

(** No parsed transaction is filed under a name inherited from
    [Object.prototype], nor under the key of a budget without
    category. *)
Lemma parsed_not_filed_under (csvContent : string) (clock : Clock)
    (txs : list Transaction.t) (clock' : Clock) (k : string) :
  parseCsvToTransactions csvContent clock = Ok (txs, clock') →
  inherited k = true ∨ k = "undefined" →
  Forall (λ tx, filed_under k tx = false) txs.
Proof.
  intros Hrun Hk. eapply Forall_impl; [exact (parsed_categories _ _ _ _ Hrun)|].
  intros tx Htx. unfold filed_under.
  destruct (Transaction.transaction_type tx); [reflexivity|].
  destruct (category_key (Transaction.category_id tx)) as [key|] eqn:Hkey;
    [|reflexivity].
  destruct (Htx key Hkey) as [Hplain Hundef].
  destruct (String.eqb_spec key k) as [->|]; [|reflexivity].
  destruct Hk as [Hk|Hk]; congruence.
Qed.

Lemma filter_none {A} (f : A → bool) (l : list A) :
  Forall (λ x, f x = false) l → List.filter f l = [].
Proof.
  induction 1 as [|x l Hx _ IH]; [reflexivity|].
  simpl. rewrite Hx. exact IH.
Qed.

(** What [update_budget] stores in a budget, after the transactions of
    a parsed file were filed. *)
Lemma update_budget_parsed (csvContent : string) (clock : Clock)
    (txs : list Transaction.t) (clock' : Clock)
    (b : Budget.record Spent) :
  parseCsvToTransactions csvContent clock = Ok (txs, clock') →
  update_budget (spending_of ∅ txs) b
  = let k := property_key (Budget.category_id b) in
    if inherited k
    then Budget.with_spent b (spent_member k) NaN
    else
      let spent :=
        number_or_zero
          (accumulate None (List.filter (counts_towards b) txs)) in
      Budget.with_spent b (num spent) (sub (Budget.amount b) spent).
Proof.
  intros Hrun. pose proof (parsed_categories_plain _ _ _ _ Hrun) as Hplain.
  unfold update_budget, counts_towards. cbn zeta.
  set (k := property_key (Budget.category_id b)).
  unfold get. destruct (inherited k) eqn:Hk.
  - rewrite (spending_of_untouched txs Hplain ∅ k)
      by (apply (parsed_not_filed_under _ _ _ _ k Hrun); left; exact Hk).
    rewrite lookup_empty. reflexivity.
  - rewrite (spending_of_lookup txs Hplain ∅ k None Hk)
      by (rewrite lookup_empty; reflexivity).
    destruct (accumulate None (List.filter (filed_under k) txs)) as [v|];
      cbn; [|reflexivity].
    destruct (JsNumber.truthy v); reflexivity.
Qed.

Lemma prepareData_budgets {R} (seedData : SeedData R)
    (csvContent : string) (clock clock1 : Clock)
    (txs : list Transaction.t) :
  parseCsvToTransactions csvContent clock = Ok (txs, clock1) →
  prepareData true seedData csvContent clock
  = Ok ({| budgets :=
             List.map (update_budget (spending_of ∅ txs)) (budgets seedData);
           other := other seedData |}, clock1).
Proof. intros Hrun. unfold prepareData. rewrite Hrun. reflexivity. Qed.

(** C2 (amended).  [prepareData] with the CSV import, on a file that
    the script parses and in which no parsed amount is NaN, gives every
    budget whose category id is not the name of a member of
    [Object.prototype] as [spent] the sum of [abs(amount)] over exactly
    the debit transactions whose category id has the budget's category
    id as property key, whatever their date; credit transactions and
    transactions with a null category never contribute, and a budget
    without category has [spent = 0].  A budget whose category id is
    such a name gets the inherited member as [spent] and NaN as
    [remaining]. *)
Theorem spent_is_debit_sum_of_category {R} (seedData : SeedData R)
    (csvContent : string) (clock clock1 : Clock)
    (txs : list Transaction.t) :
  parseCsvToTransactions csvContent clock = Ok (txs, clock1) →
  Forall (λ tx, is_nan (Transaction.amount tx) = false) txs →
  prepareData true seedData csvContent clock
  = Ok ({| budgets :=
             List.map
               (λ b, let k := property_key (Budget.category_id b) in
                     if inherited k
                     then Budget.with_spent b (spent_member k) NaN
                     else Budget.with_spent b (num (spent_on b txs))
                            (sub (Budget.amount b) (spent_on b txs)))
               (budgets seedData);
           other := other seedData |}, clock1)
  ∧ ∀ b : Budget.record Spent,
      Budget.category_id b = None → spent_on b txs = lit 0.
Proof.
  intros Hparse Hnan. split.
  - rewrite (prepareData_budgets _ _ _ _ _ Hparse). do 3 f_equal.
    apply map_ext. intros b.
    rewrite (update_budget_parsed _ _ _ _ b Hparse). cbn zeta.
    destruct (inherited _); [reflexivity|].
    assert (Hspent : number_or_zero
                       (accumulate None (List.filter (counts_towards b) txs))
                     = spent_on b txs).
    { rewrite accumulate_sum; [reflexivity| |discriminate].
      rewrite Forall_forall in *. intros tx Hin. apply Hnan.
      apply list_elem_of_In. apply list_elem_of_In in Hin.
      apply filter_In in Hin. tauto. }
    rewrite Hspent. reflexivity.
  - intros b Hnone. unfold spent_on, counts_towards.
    rewrite filter_none; [reflexivity|].
    apply (parsed_not_filed_under _ _ _ _ _ Hparse).
    right. rewrite Hnone. reflexivity.
Qed.

Lemma spent_is_debit_sum_of_category_witness :
  ∃ txs clock1,
    parseCsvToTransactions groceries_two_years_csv
      (fixed_clock 1731575000000) = Ok (txs, clock1)
    ∧ Forall (λ tx, is_nan (Transaction.amount tx) = false) txs
    ∧ prepareData true overall_and_groceries groceries_two_years_csv
        (fixed_clock 1731575000000)
      = Ok ({| budgets :=
                 List.map
                   (λ b, let k := property_key (Budget.category_id b) in
                         if inherited k
                         then Budget.with_spent b (spent_member k) NaN
                         else Budget.with_spent b (num (spent_on b txs))
                                (sub (Budget.amount b) (spent_on b txs)))
                   (budgets overall_and_groceries);
               other := other overall_and_groceries |}, clock1)
    ∧ ∀ b : Budget.record Spent,
        Budget.category_id b = None → spent_on b txs = lit 0.
Proof.
  eexists _, _.
  assert (Hparse : parseCsvToTransactions groceries_two_years_csv
                     (fixed_clock 1731575000000) = Ok (_, _))
    by (vm_compute; reflexivity).
  split; [exact Hparse|].
  match goal with
  | |- Forall ?P ?l ∧ _ => assert (Hnan : Forall P l) by (repeat constructor)
  end.
  split; [exact Hnan|].
  exact (spent_is_debit_sum_of_category overall_and_groceries _ _ _ _
           Hparse Hnan).
Defined.

(** C2 (counterexample).  The groceries budget starts on 2024-11-01, so
    the row of January 2020 lies in none of its periods; it is counted
    all the same, and [spent] is 80.  The overall budget, without
    category, gets [spent = 0] although both rows are debits. *)
Lemma spent_ignores_period_and_overall :
  ∃ txs clock1 overall groceries clock',
    parseCsvToTransactions groceries_two_years_csv
      (fixed_clock 1731575000000) = Ok (txs, clock1)
    ∧ List.map Transaction.date txs = [Some "2020-01-15"; Some "2024-11-05"]
    ∧ List.map Transaction.transaction_type txs = [debit; debit]
    ∧ List.map Transaction.amount txs = [lit 50; lit 30]
    ∧ prepareData true overall_and_groceries groceries_two_years_csv
        (fixed_clock 1731575000000)
      = Ok ({| budgets := [overall; groceries]; other := tt |}, clock')
    ∧ Budget.category_id overall = None
    ∧ Budget.spent overall = num (lit 0)
    ∧ Budget.category_id groceries = Some "cat_supermarkets"
    ∧ Budget.start_date groceries = "2024-11-01"
    ∧ Budget.spent groceries = num (lit 80).
Proof.
  eexists _, _, _, _, _.
  split; [vm_compute; reflexivity|].
  split; [vm_compute; reflexivity|].
  split; [vm_compute; reflexivity|].
  split; [vm_compute; reflexivity|].
  split; [vm_compute; reflexivity|].
  vm_compute. repeat split.
Qed.

(** C4 (amended).  After [prepareData] with the CSV import, every
    budget whose category id is not the name of a member of
    [Object.prototype] has a number as [spent], with [spent >= 0], and
    [remaining] is the binary64 difference [amount - spent] with the
    [spent] it was given in the same step; a budget whose category id
    is such a name has the inherited member as [spent] and NaN as
    [remaining].  The budget page likewise shows [amount - spent], not
    the stored field. *)
Theorem remaining_recomputed_spent_nonneg {R} (seedData seedData' : SeedData R)
    (csvContent : string) (clock clock' : Clock) :
  prepareData true seedData csvContent clock = Ok (seedData', clock') →
  Forall (λ b,
            let k := property_key (Budget.category_id b) in
            if inherited k
            then Budget.spent b = spent_member k ∧ Budget.remaining b = NaN
            else ∃ spent, Budget.spent b = num spent
                          ∧ ge spent (lit 0) = true
                          ∧ Budget.remaining b = sub (Budget.amount b) spent)
         (budgets seedData')
  ∧ ∀ b, BudgetsPage.remaining (BudgetsPage.budget_card b)
         = sub (Budget.amount b) (Budget.spent b).
Proof.
  intros Hprepare. split; [|reflexivity].
  destruct (parseCsvToTransactions csvContent clock) as [[txs c1]|e]
    eqn:Hparse.
  - rewrite (prepareData_budgets _ _ _ _ _ Hparse) in Hprepare.
    injection Hprepare as <- _. cbn [budgets].
    apply Forall_forall. intros b' Hin.
    apply list_elem_of_In, in_map_iff in Hin as (b & <- & _).
    rewrite (update_budget_parsed _ _ _ _ b Hparse). cbn zeta.
    destruct (inherited (property_key (Budget.category_id b))) eqn:Hk.
    all: cbn [Budget.category_id Budget.spent Budget.remaining Budget.amount
              Budget.with_spent].
    all: rewrite Hk.
    { split; reflexivity. }
    eexists. split; [reflexivity|]. split; [|reflexivity].
    apply nonneg_ge_zero, number_or_zero_nonneg.
    apply accumulate_entries. discriminate.
  - unfold prepareData in Hprepare. rewrite Hparse in Hprepare.
    discriminate Hprepare.
Qed.

Lemma remaining_recomputed_spent_nonneg_witness :
  ∃ seedData' clock',
    prepareData true leisure_budget subscription_csv
      (fixed_clock 1731575000000) = Ok (seedData', clock')
    ∧ Forall (λ b,
                let k := property_key (Budget.category_id b) in
                if inherited k
                then Budget.spent b = spent_member k
                     ∧ Budget.remaining b = NaN
                else ∃ spent, Budget.spent b = num spent
                              ∧ ge spent (lit 0) = true
                              ∧ Budget.remaining b
                                = sub (Budget.amount b) spent)
             (budgets seedData')
    ∧ ∀ b, BudgetsPage.remaining (BudgetsPage.budget_card b)
           = sub (Budget.amount b) (Budget.spent b).
Proof.
  eexists _, _.
  assert (Hprepare : prepareData true leisure_budget subscription_csv
                       (fixed_clock 1731575000000) = Ok (_, _))
    by (vm_compute; reflexivity).
  split; [exact Hprepare|].
  exact (remaining_recomputed_spent_nonneg _ _ _ _ _ Hprepare).
Defined.

(** C4 (counterexample).  With an amount of 49.99 and 2.09 spent, the
    recomputed [remaining] is 47.900000000000006 and [spent + remaining]
    is 49.99000000000001, which is not the amount.  And a budget whose
    category id is the word toString is given a function as [spent],
    which is no number at all, and NaN as [remaining]. *)
Lemma spent_plus_remaining_not_amount :
  (∃ b clock',
     prepareData true leisure_budget subscription_csv
       (fixed_clock 1731575000000)
     = Ok ({| budgets := [b]; other := tt |}, clock')
     ∧ Budget.amount b = parseFloat "49.99"
     ∧ Budget.spent b = num (parseFloat "2.09")
     ∧ Budget.remaining b = parseFloat "47.900000000000006"
     ∧ add (parseFloat "2.09") (Budget.remaining b)
       = parseFloat "49.99000000000001"
     ∧ strict_eq (add (parseFloat "2.09") (Budget.remaining b))
                 (Budget.amount b) = false)
  ∧ (∃ b clock',
       prepareData true misfiled_budget subscription_csv
         (fixed_clock 1731575000000)
       = Ok ({| budgets := [b]; other := tt |}, clock')
       ∧ Budget.category_id b = Some "toString"
       ∧ Budget.spent b = spent_member "toString"
       ∧ Budget.remaining b = NaN).
Proof.
  split.
  - eexists _, _. split; [vm_compute; reflexivity|].
    vm_compute. repeat split.
  - eexists _, _. split; [vm_compute; reflexivity|].
    vm_compute. repeat split.
Qed.

End SpendingFacts.

(** ** The import result of the API layer *)

Section ImportResultFacts.



End ImportResultFacts.


(** ** The import script: further properties *)

Section ImportScriptFacts.
Import JsNumber JsString JsObject ImportScript.

Lemma lookup_3_length {A} (l : list A) :
  is_Some (l !! 3%nat) ↔ (4 <= length l)%nat.
Proof. rewrite lookup_lt_is_Some. lia. Qed.

Lemma parse_line_ok_iff (clock : Clock) (i : nat) (line : string) :
  is_ok (parse_line clock i line) = row_parses line.
Proof.
  unfold parse_line, row_parses. cbn zeta.
  destruct (read_clock clock) as [now c1].
  destruct (split "," line !! 3%nat) as [direction|] eqn:Hdir;
    cbn [mbind mret outcome_bind outcome_ret].
  - assert (Hlen : (4 <=? length (split "," line))%nat = true).
    { apply Nat.leb_le, lookup_3_length. eauto. }
    rewrite Hlen.
    destruct (read_clock c1) as [created c2].
    destruct (read_clock c2) as [updated c3]. reflexivity.
  - assert (Hlen : (4 <=? length (split "," line))%nat = false).
    { apply Nat.leb_nle. rewrite <- lookup_3_length, Hdir.
      intros [? ?]. discriminate. }
    rewrite Hlen. reflexivity.
Qed.

Lemma parse_lines_ok_iff (lines : list string) :
  ∀ (clock : Clock) (i : nat),
    is_ok (parse_lines clock i lines)
    = forallb row_parses
        (List.filter (λ line, negb (is_empty line)) (List.map trim lines)).
Proof.
  induction lines as [|raw rest IH]; intros clock i; [reflexivity|].
  cbn [parse_lines List.map List.filter].
  destruct (is_empty (trim raw)); cbn [negb]; [apply IH|].
  cbn [forallb]. rewrite <- (parse_line_ok_iff clock i).
  destruct (parse_line clock i (trim raw)) as [[tx c1]|e];
    cbn [mbind mret outcome_bind outcome_ret is_ok andb]; [|reflexivity].
  rewrite <- (IH c1 (S i)).
  destruct (parse_lines c1 (S i) rest) as [[txs c2]|e]; reflexivity.
Qed.

(** X1.  A run of [parseCsvToTransactions] succeeds exactly when every
    data line has at least four fields; one data line with fewer makes
    the whole run end in a [TypeError].  When the run succeeds it
    yields one transaction per data line. *)
Theorem import_succeeds_iff_all_rows_parse (csvContent : string)
    (clock : Clock) :
  is_ok (parseCsvToTransactions csvContent clock)
  = forallb row_parses (data_lines csvContent)
  ∧ (∀ txs clock', parseCsvToTransactions csvContent clock = Ok (txs, clock')
       → length txs = length (data_lines csvContent))
  ∧ (∀ line, line ∈ data_lines csvContent
       → (length (split "," line) < 4)%nat
       → parseCsvToTransactions csvContent clock = Throw TypeError).
Proof.
  assert (Hok : is_ok (parseCsvToTransactions csvContent clock)
                = forallb row_parses (data_lines csvContent))
    by apply parse_lines_ok_iff.
  split; [exact Hok|]. split.
  - intros txs clock' Hrun. apply parseCsvToTransactions_rows in Hrun.
    symmetry. eapply Forall2_length, Hrun.
  - intros line Hin Hshort.
    destruct (parseCsvToTransactions csvContent clock) as [r|[]];
      [|reflexivity].
    exfalso. symmetry in Hok. cbn [is_ok] in Hok.
    rewrite forallb_forall in Hok.
    specialize (Hok line (proj1 (list_elem_of_In _ _) Hin)).
    unfold row_parses in Hok. apply Nat.leb_le in Hok. lia.
Qed.

Lemma split_first_line (sep : ascii) (first rest : string) :
  has_char sep first = false →
  split sep (first +:+ String sep rest) = first :: split sep rest.
Proof.
  induction first as [|c first IH]; intros Hfirst.
  - change (EmptyString +:+ String sep rest) with (String sep rest).
    cbn [split]. rewrite Ascii.eqb_refl. reflexivity.
  - cbn in Hfirst. apply orb_false_iff in Hfirst as [Hc Hfirst].
    change (String c first +:+ String sep rest)
      with (String c (first +:+ String sep rest)).
    cbn [split]. rewrite Hc, (IH Hfirst). reflexivity.
Qed.

(** X2.  The header line is not read: two files that differ only in
    their first line give the same result. *)
Theorem header_line_is_ignored (header1 header2 body : string)
    (clock : Clock) :
  has_char "010" header1 = false →
  has_char "010" header2 = false →
  parseCsvToTransactions (header1 +:+ String "010" body) clock
  = parseCsvToTransactions (header2 +:+ String "010" body) clock.
Proof.
  intros H1 H2. unfold parseCsvToTransactions.
  rewrite !split_first_line by assumption. reflexivity.
Qed.

Lemma header_line_is_ignored_witness :
  let body := "15-01-2024,Albert Heijn,87.45,debit,Supermarkten" in
  has_char "010" header_line = false
  ∧ has_char "010" "Datum,Omschrijving,Bedrag,Af/Bij" = false
  ∧ parseCsvToTransactions (header_line +:+ String "010" body)
      (fixed_clock 1731575000000)
    = parseCsvToTransactions
        ("Datum,Omschrijving,Bedrag,Af/Bij" +:+ String "010" body)
        (fixed_clock 1731575000000).
Proof.
  split; [reflexivity|]. split; [reflexivity|].
  apply header_line_is_ignored; reflexivity.
Defined.

Lemma pretty_N_char_not_underscore (x : N) :
  Ascii.eqb (pretty_N_char x) "_" = false.
Proof. unfold pretty_N_char. repeat case_match; reflexivity. Qed.

Lemma pretty_N_go_no_underscore (x : N) :
  ∀ s, has_char "_" s = false → has_char "_" (pretty_N_go x s) = false.
Proof.
  induction (N.lt_wf_0 x) as [x _ IH]; intros s Hs.
  destruct (decide (x = 0%N)) as [->|Hx]; [exact Hs|].
  rewrite pretty_N_go_step by lia.
  apply IH; [apply N.div_lt; lia|].
  cbn [has_char]. rewrite pretty_N_char_not_underscore. exact Hs.
Qed.

Lemma pretty_N_no_underscore (x : N) : has_char "_" (pretty x) = false.
Proof.
  unfold pretty, pretty_N. destruct (decide (x = 0%N)); [reflexivity|].
  apply pretty_N_go_no_underscore. reflexivity.
Qed.

Lemma append_sep_inj (c : ascii) (a a' b b' : string) :
  has_char c a = false → has_char c a' = false →
  a +:+ String c b = a' +:+ String c b' → a = a' ∧ b = b'.
Proof.
  revert a'. induction a as [|x a IH]; intros [|y a'] Ha Ha' Heq.
  - rewrite !append_empty_l in Heq. injection Heq as ->. auto.
  - rewrite append_empty_l, append_String in Heq. injection Heq as <- _.
    cbn in Ha'. rewrite Ascii.eqb_refl in Ha'. discriminate Ha'.
  - rewrite append_empty_l, append_String in Heq. injection Heq as -> _.
    cbn in Ha. rewrite Ascii.eqb_refl in Ha. discriminate Ha.
  - rewrite !append_String in Heq. injection Heq as -> Heq.
    cbn in Ha, Ha'.
    apply orb_false_iff in Ha as [_ Ha]. apply orb_false_iff in Ha' as [_ Ha'].
    destruct (IH a' Ha Ha' Heq) as [-> ->]. auto.
Qed.

(** The id of a transaction determines the clock reading and the line
    index it was built from. *)
Lemma transaction_id_inj (now now' : N) (i i' : nat) :
  transaction_id now i = transaction_id now' i' → now = now' ∧ i = i'.
Proof.
  unfold transaction_id. rewrite !append_String, !append_empty_l.
  intros [= Heq].
  apply append_sep_inj in Heq as [Hnow Hi];
    [|apply pretty_N_no_underscore..].
  split; [apply (inj pretty), Hnow | apply (inj pretty), Hi].
Qed.

Lemma parse_lines_ids (lines : list string) :
  ∀ (clock : Clock) (i : nat) (txs : list Transaction.t) (clock' : Clock),
    parse_lines clock i lines = Ok (txs, clock') →
    Forall (λ tx, ∃ now j, (i <= j)%nat
                           ∧ Transaction.id tx = transaction_id now j) txs
    ∧ NoDup (List.map Transaction.id txs).
Proof.
  induction lines as [|raw rest IH]; intros clock i txs clock'.
  - intros [= <- <-]. split; constructor.
  - cbn [parse_lines]. destruct (is_empty (trim raw)).
    + intros Hrest. destruct (IH _ _ _ _ Hrest) as [Hids Hnodup].
      split; [|exact Hnodup].
      eapply Forall_impl; [exact Hids|].
      intros tx (now & j & Hj & Hid). exists now, j. split; [lia|exact Hid].
    + destruct (parse_line clock i (trim raw)) as [[tx c1]|e] eqn:Hline;
        cbn [mbind mret outcome_bind outcome_ret]; [|discriminate].
      destruct (parse_lines c1 (S i) rest) as [[txs' c2]|e] eqn:Hrest;
        cbn [mbind mret outcome_bind outcome_ret]; [|discriminate].
      intros [= <- <-].
      destruct (IH _ _ _ _ Hrest) as [Hids Hnodup].
      apply parse_line_fields in Hline as (Hid & _).
      split.
      * constructor; [eauto|].
        eapply Forall_impl; [exact Hids|].
        intros tx' (now & j & Hj & Hid'). exists now, j.
        split; [lia|exact Hid'].
      * cbn [List.map]. constructor; [|exact Hnodup].
        intros Hin. apply list_elem_of_In, in_map_iff in Hin
          as (tx' & Hsame & Hin).
        rewrite Forall_forall in Hids.
        destruct (Hids tx' (proj2 (list_elem_of_In _ _) Hin))
          as (now & j & Hj & Hid').
        rewrite Hid, Hid' in Hsame.
        apply transaction_id_inj in Hsame as [_ ->]. lia.
Qed.

(** X3.  The transactions of one run have pairwise distinct ids, even
    when the clock returns the same reading for every row. *)
Theorem ids_distinct_within_a_run (csvContent : string) (clock : Clock)
    (txs : list Transaction.t) (clock' : Clock) :
  parseCsvToTransactions csvContent clock = Ok (txs, clock') →
  NoDup (List.map Transaction.id txs).
Proof. intros Hrun. eapply parse_lines_ids, Hrun. Qed.

Lemma ids_distinct_within_a_run_witness :
  ∃ txs clock',
    parseCsvToTransactions groceries_two_years_csv
      (fixed_clock 1731575000000) = Ok (txs, clock')
    ∧ NoDup (List.map Transaction.id txs).
Proof.
  eexists _, _.
  assert (Hrun : parseCsvToTransactions groceries_two_years_csv
                   (fixed_clock 1731575000000) = Ok (_, _))
    by (vm_compute; reflexivity).
  split; [exact Hrun|].
  exact (ids_distinct_within_a_run _ _ _ _ Hrun).
Defined.

Lemma split_fields_keep_absent (c sep : ascii) (s : string) :
  has_char c s = false →
  ∀ field, field ∈ split sep s → has_char c field = false.
Proof.
  induction s as [|x rest IH]; intros Hs field Hin.
  - apply list_elem_of_singleton in Hin as ->. reflexivity.
  - cbn [has_char] in Hs. apply orb_false_iff in Hs as [Hx Hrest].
    cbn [split] in Hin. destruct (Ascii.eqb x sep).
    + apply elem_of_cons in Hin as [->|Hin]; [reflexivity | auto].
    + destruct (split sep rest) as [|first others] eqn:Hsplit.
      * apply list_elem_of_singleton in Hin as ->.
        cbn [has_char]. rewrite Hx. reflexivity.
      * apply elem_of_cons in Hin as [->|Hin].
        -- cbn [has_char]. rewrite Hx. apply IH; [exact Hrest|left].
        -- apply IH; [exact Hrest|right; exact Hin].
Qed.

Lemma parse_line_text_fields (clock : Clock) (i : nat) (line : string)
    (tx : Transaction.t) (clock' : Clock) :
  parse_line clock i line = Ok (tx, clock') →
  let values := split "," line in
  Transaction.account_number tx = values !! 5%nat
  ∧ Transaction.account_holder tx = values !! 6%nat
  ∧ Transaction.tags tx
    = match values !! 7%nat with
      | Some v => if JsString.truthy v then split ";" v else []
      | None => []
      end.
Proof.
  unfold parse_line. cbn zeta.
  destruct (read_clock clock) as [now c1].
  destruct (split "," line !! 3%nat) as [direction|];
    cbn [mbind mret outcome_bind outcome_ret]; [|discriminate].
  destruct (read_clock c1) as [created c2].
  destruct (read_clock c2) as [updated c3].
  intros [= <- <-]. repeat split.
Qed.

(** X4.  No text property of a parsed transaction holds a comma, and no
    tag holds a comma or a semicolon: a line is cut at every comma,
    quoted or not, and the eighth field at every semicolon. *)
Theorem parsed_text_has_no_separator (csvContent : string) (clock : Clock)
    (txs : list Transaction.t) (clock' : Clock) :
  parseCsvToTransactions csvContent clock = Ok (txs, clock') →
  Forall
    (λ tx,
       (∀ v, Some v ∈ [Transaction.date tx; Transaction.description tx;
                       Transaction.account_number tx;
                       Transaction.account_holder tx]
             → has_char "," v = false)
       ∧ (∀ tag, tag ∈ Transaction.tags tx
                 → has_char "," tag = false ∧ has_char ";" tag = false))
    txs.
Proof.
  intros Hrun. apply parseCsvToTransactions_rows in Hrun.
  induction Hrun as [|line tx lines txs (c0 & i0 & c1 & Hline) _ IH];
    constructor; [|exact IH].
  pose proof (parse_line_fields _ _ _ _ _ Hline)
    as (_ & Hdate & Hdesc & _).
  pose proof (parse_line_text_fields _ _ _ _ _ Hline)
    as (Hnumber & Hholder & Htags).
  cbn zeta in *.
  assert (Hfield : ∀ k v, split "," line !! k = Some v
                          → has_char "," v = false).
  { intros k v Hk. eapply split_fields_no_sep, list_elem_of_lookup_2, Hk. }
  split.
  - intros v Hv. rewrite Hdate, Hdesc, Hnumber, Hholder in Hv.
    repeat (apply elem_of_cons in Hv as [Hv|Hv];
            [symmetry in Hv; eapply Hfield, Hv|]).
    inversion Hv.
  - intros tag Htag. rewrite Htags in Htag.
    destruct (split "," line !! 7%nat) as [v|] eqn:Hv; [|inversion Htag].
    destruct (JsString.truthy v); [|inversion Htag].
    split.
    + eapply split_fields_keep_absent; [eapply Hfield, Hv | exact Htag].
    + eapply split_fields_no_sep, Htag.
Qed.

Lemma parsed_text_has_no_separator_witness :
  ∃ txs clock',
    parseCsvToTransactions groceries_csv (fixed_clock 1731575000000)
    = Ok (txs, clock')
    ∧ Forall
        (λ tx,
           (∀ v, Some v ∈ [Transaction.date tx; Transaction.description tx;
                           Transaction.account_number tx;
                           Transaction.account_holder tx]
                 → has_char "," v = false)
           ∧ (∀ tag, tag ∈ Transaction.tags tx
                     → has_char "," tag = false ∧ has_char ";" tag = false))
        txs.
Proof.
  eexists _, _.
  assert (Hrun : parseCsvToTransactions groceries_csv
                   (fixed_clock 1731575000000) = Ok (_, _))
    by (vm_compute; reflexivity).
  split; [exact Hrun|].
  exact (parsed_text_has_no_separator _ _ _ _ Hrun).
Defined.

End ImportScriptFacts.

(** ** The budget update of the import script: further properties *)

Section BudgetUpdateFacts.
Import JsNumber JsString JsObject ImportScript.

Lemma with_spent_same {S} (b : Budget.record S) :
  Budget.with_spent b (Budget.spent b) (Budget.remaining b) = b.
Proof. destruct b. reflexivity. Qed.

(** X5.  [prepareData] neither adds nor drops a budget and changes
    nothing of a budget but [spent] and [remaining]; the rest of the
    seed data is returned as it was. *)
Theorem prepareData_keeps_budgets {R} (importCsv : bool)
    (seedData seedData' : SeedData R) (csvContent : string)
    (clock clock' : Clock) :
  prepareData importCsv seedData csvContent clock = Ok (seedData', clock') →
  Forall2
    (λ b b', b' = Budget.with_spent b (Budget.spent b') (Budget.remaining b'))
    (budgets seedData) (budgets seedData')
  ∧ other seedData' = other seedData.
Proof.
  destruct importCsv.
  - intros Hprepare.
    destruct (parseCsvToTransactions csvContent clock) as [[txs c1]|e]
      eqn:Hparse.
    + rewrite (prepareData_budgets _ _ _ _ _ Hparse) in Hprepare.
      injection Hprepare as <- _. cbn [budgets other].
      split; [|reflexivity].
      induction (budgets seedData) as [|b bs IH]; constructor;
        [reflexivity | exact IH].
    + unfold prepareData in Hprepare. rewrite Hparse in Hprepare.
      discriminate Hprepare.
  - intros [= <- _]. split; [|reflexivity].
    induction (budgets seedData) as [|b bs IH]; constructor;
      [symmetry; apply with_spent_same | exact IH].
Qed.

Lemma prepareData_keeps_budgets_witness :
  ∃ seedData' clock',
    prepareData true overall_and_groceries groceries_two_years_csv
      (fixed_clock 1731575000000) = Ok (seedData', clock')
    ∧ Forall2
        (λ b b', b' = Budget.with_spent b (Budget.spent b')
                        (Budget.remaining b'))
        (budgets overall_and_groceries) (budgets seedData')
    ∧ other seedData' = other overall_and_groceries.
Proof.
  eexists _, _.
  assert (Hprepare : prepareData true overall_and_groceries
                       groceries_two_years_csv (fixed_clock 1731575000000)
                     = Ok (_, _))
    by (vm_compute; reflexivity).
  split; [exact Hprepare|].
  exact (prepareData_keeps_budgets _ _ _ _ _ _ Hprepare).
Defined.

Lemma sub_zero (a : number) : sub a (lit 0) = a.
Proof. destruct a as [[]|[]| |[] m e]; reflexivity. Qed.

(** The budget at an index after [prepareData] on a parsed file. *)
Lemma prepareData_budget_at {R} (seedData seedData' : SeedData R)
    (csvContent : string) (clock clock1 clock' : Clock)
    (txs : list Transaction.t) (i : nat) (b : Budget.record Spent) :
  parseCsvToTransactions csvContent clock = Ok (txs, clock1) →
  prepareData true seedData csvContent clock = Ok (seedData', clock') →
  budgets seedData !! i = Some b →
  inherited (property_key (Budget.category_id b)) = false →
  budgets seedData' !! i
  = Some (let spent :=
            number_or_zero
              (accumulate None (List.filter (counts_towards b) txs)) in
          Budget.with_spent b (num spent) (sub (Budget.amount b) spent)).
Proof.
  intros Hparse Hprepare Hb Hk.
  rewrite (prepareData_budgets _ _ _ _ _ Hparse) in Hprepare.
  injection Hprepare as <- _. cbn [budgets].
  change (List.map ?f ?l) with (f <$> l).
  rewrite list_lookup_fmap, Hb. cbn [fmap option_fmap option_map].
  rewrite (update_budget_parsed _ _ _ _ b Hparse). cbn zeta.
  rewrite Hk. reflexivity.
Qed.

(** X6.  A budget whose category id is not the name of a member of
    [Object.prototype], and under whose category the file has no debit
    row, gets [spent = 0] and [remaining] equal to its amount, bit for
    bit. *)
Theorem untouched_budget_keeps_amount {R} (seedData : SeedData R)
    (csvContent : string) (clock clock1 : Clock)
    (txs : list Transaction.t) (i : nat) (b : Budget.record Spent) :
  parseCsvToTransactions csvContent clock = Ok (txs, clock1) →
  budgets seedData !! i = Some b →
  inherited (property_key (Budget.category_id b)) = false →
  List.filter (counts_towards b) txs = [] →
  ∃ seedData',
    prepareData true seedData csvContent clock = Ok (seedData', clock1)
    ∧ budgets seedData' !! i
      = Some (Budget.with_spent b (num (lit 0)) (Budget.amount b)).
Proof.
  intros Hparse Hb Hk Hnone.
  pose proof (prepareData_budgets seedData _ _ _ _ Hparse) as Hprepare.
  eexists. split; [exact Hprepare|].
  rewrite (prepareData_budget_at _ _ _ _ _ _ _ _ _ Hparse Hprepare Hb Hk).
  rewrite Hnone. cbn [accumulate fold_left number_or_zero].
  rewrite sub_zero. reflexivity.
Qed.

Lemma untouched_budget_keeps_amount_witness :
  let groceries :=
    seed_budget
      (sample_budget (Some "cat_supermarkets") (lit 400) (lit 0) None) in
  ∃ txs clock1,
    parseCsvToTransactions salary_csv (fixed_clock 1731575000000)
    = Ok (txs, clock1)
    ∧ budgets overall_and_groceries !! 1%nat = Some groceries
    ∧ inherited (property_key (Budget.category_id groceries)) = false
    ∧ List.filter (counts_towards groceries) txs = []
    ∧ ∃ seedData',
        prepareData true overall_and_groceries salary_csv
          (fixed_clock 1731575000000) = Ok (seedData', clock1)
        ∧ budgets seedData' !! 1%nat
          = Some (Budget.with_spent groceries (num (lit 0))
                    (Budget.amount groceries)).
Proof.
  intros groceries. eexists _, _.
  assert (Hparse : parseCsvToTransactions salary_csv
                     (fixed_clock 1731575000000) = Ok (_, _))
    by (vm_compute; reflexivity).
  split; [exact Hparse|].
  split; [reflexivity|]. split; [reflexivity|]. split; [reflexivity|].
  exact (untouched_budget_keeps_amount overall_and_groceries _ _ _ _
           1%nat groceries Hparse eq_refl eq_refl eq_refl).
Defined.

Lemma add_nan_r (x : number) : add x NaN = NaN.
Proof. destruct x; reflexivity. Qed.

Lemma accumulate_after_nan (txs : list Transaction.t) :
  Forall (λ tx, is_nan (Transaction.amount tx) = false) txs →
  number_or_zero (accumulate (Some NaN) txs) = sum_abs txs.
Proof.
  intros Hnan. destruct txs as [|tx rest]; [reflexivity|].
  change (accumulate (Some NaN) (tx :: rest))
    with (accumulate None (tx :: rest)).
  rewrite accumulate_sum; [reflexivity | exact Hnan | discriminate].
Qed.

(** The key of a budget towards which a parsed transaction counts is
    not a name inherited from [Object.prototype]. *)
Lemma counted_budget_key {S} (csvContent : string) (clock clock1 : Clock)
    (txs : list Transaction.t) (b : Budget.record S) (tx : Transaction.t) :
  parseCsvToTransactions csvContent clock = Ok (txs, clock1) →
  In tx (List.filter (counts_towards b) txs) →
  inherited (property_key (Budget.category_id b)) = false.
Proof.
  intros Hparse Hin. apply filter_In in Hin as [Hin Hcounts].
  pose proof (parsed_categories _ _ _ _ Hparse) as Hkeys.
  rewrite Forall_forall in Hkeys.
  specialize (Hkeys tx (proj2 (list_elem_of_In _ _) Hin)).
  unfold counts_towards, filed_under in Hcounts.
  destruct (Transaction.transaction_type tx); [discriminate|].
  destruct (category_key (Transaction.category_id tx)) as [key|] eqn:Hkey;
    [|discriminate].
  apply String.eqb_eq in Hcounts as <-. apply (Hkeys key eq_refl).
Qed.

(** X7.  An amount that cannot be read does not make [spent] NaN: it
    resets the running total of its category.  When the debit rows of a
    budget's category are [before], then a row whose amount is NaN, then
    [after] with readable amounts, [spent] is the sum over [after]
    alone. *)
Theorem unreadable_amount_resets_spent {R}
    (seedData seedData' : SeedData R) (csvContent : string)
    (clock clock1 clock' : Clock) (txs : list Transaction.t) (i : nat)
    (b : Budget.record Spent) (before after : list Transaction.t)
    (unreadable : Transaction.t) :
  parseCsvToTransactions csvContent clock = Ok (txs, clock1) →
  prepareData true seedData csvContent clock = Ok (seedData', clock') →
  budgets seedData !! i = Some b →
  List.filter (counts_towards b) txs = before ++ unreadable :: after →
  is_nan (Transaction.amount unreadable) = true →
  Forall (λ tx, is_nan (Transaction.amount tx) = false) after →
  Budget.spent <$> budgets seedData' !! i = Some (num (sum_abs after)).
Proof.
  intros Hparse Hprepare Hb Hrows Hbad Hafter.
  assert (Hk : inherited (property_key (Budget.category_id b)) = false).
  { apply (counted_budget_key _ _ _ _ b unreadable Hparse).
    rewrite Hrows. apply in_or_app. right. left. reflexivity. }
  rewrite (prepareData_budget_at _ _ _ _ _ _ _ _ _ Hparse Hprepare Hb Hk).
  cbn [fmap option_fmap option_map]. cbn zeta.
  cbn [Budget.with_spent Budget.spent]. do 2 f_equal.
  rewrite Hrows. unfold accumulate at 1. rewrite fold_left_app.
  cbn [fold_left].
  destruct (Transaction.amount unreadable) eqn:Hamount;
    try discriminate Hbad.
  cbn [abs SFabs]. change S754_nan with NaN. rewrite add_nan_r.
  apply accumulate_after_nan, Hafter.
Qed.

Lemma unreadable_amount_resets_spent_witness :
  let groceries :=
    seed_budget
      (sample_budget (Some "cat_supermarkets") (lit 400) (lit 0) None) in
  ∃ t1 t2 t3 clock1 seedData' clock',
    parseCsvToTransactions unreadable_amount_csv (fixed_clock 1731575000000)
    = Ok ([t1; t2; t3], clock1)
    ∧ prepareData true groceries_only unreadable_amount_csv
        (fixed_clock 1731575000000) = Ok (seedData', clock')
    ∧ budgets groceries_only !! 0%nat = Some groceries
    ∧ List.filter (counts_towards groceries) [t1; t2; t3]
      = [t1] ++ t2 :: [t3]
    ∧ is_nan (Transaction.amount t2) = true
    ∧ Forall (λ tx, is_nan (Transaction.amount tx) = false) [t3]
    ∧ Budget.spent <$> budgets seedData' !! 0%nat
      = Some (num (sum_abs [t3]))
    ∧ sum_abs [t3] = lit 30.
Proof.
  intros groceries. eexists _, _, _, _, _, _.
  assert (Hparse : parseCsvToTransactions unreadable_amount_csv
                     (fixed_clock 1731575000000) = Ok ([_; _; _], _))
    by (vm_compute; reflexivity).
  assert (Hprepare : prepareData true groceries_only unreadable_amount_csv
                       (fixed_clock 1731575000000) = Ok (_, _))
    by (vm_compute; reflexivity).
  split; [exact Hparse|]. split; [exact Hprepare|].
  split; [reflexivity|]. split; [reflexivity|]. split; [reflexivity|].
  match goal with
  | |- Forall ?P ?l ∧ _ => assert (Hafter : Forall P l) by (repeat constructor)
  end.
  split; [exact Hafter|]. split; [|reflexivity].
  eapply (unreadable_amount_resets_spent _ _ _ _ _ _ _ 0%nat groceries
            [_] [_] _ Hparse Hprepare);
    [reflexivity | reflexivity | reflexivity | exact Hafter].
Defined.

End BudgetUpdateFacts.


(** ** Substrings *)

Section IncludesFacts.
Import JsString.

Lemma strip_prefix_spec (p s rest : string) :
  strip_prefix p s = Some rest ↔ s = p +:+ rest.
Proof.
  revert s. induction p as [|a p IH]; intros s.
  - cbn [strip_prefix]. rewrite append_empty_l.
    split; [intros [= ->]; reflexivity | intros ->; reflexivity].
  - rewrite append_String. destruct s as [|b s]; cbn [strip_prefix].
    + split; discriminate.
    + destruct (Ascii.eqb_spec a b) as [->|Hne].
      * rewrite IH. split; [intros ->; reflexivity | intros [= ->]; reflexivity].
      * split; [discriminate | intros [= -> _]; congruence].
Qed.

Lemma includes_spec (s t : string) :
  includes s t = true ↔ ∃ before after, s = before +:+ t +:+ after.
Proof.
  induction s as [|c s IH]; cbn [includes].
  - destruct (strip_prefix t EmptyString) as [rest|] eqn:Hp.
    + split; [intros _|reflexivity].
      apply strip_prefix_spec in Hp. exists EmptyString, rest. exact Hp.
    + split; [discriminate|]. intros (before & after & Heq). exfalso.
      destruct before as [|b before]; [|discriminate Heq].
      rewrite append_empty_l in Heq.
      apply strip_prefix_spec in Heq. congruence.
  - destruct (strip_prefix t (String c s)) as [rest|] eqn:Hp.
    + split; [intros _|reflexivity].
      apply strip_prefix_spec in Hp. exists EmptyString, rest. exact Hp.
    + rewrite IH. split.
      * intros (before & after & ->). exists (String c before), after.
        reflexivity.
      * intros (before & after & Heq).
        destruct before as [|b before].
        -- rewrite append_empty_l in Heq.
           apply strip_prefix_spec in Heq. congruence.
        -- rewrite append_String in Heq. injection Heq as _ ->. eauto.
Qed.

Lemma includes_empty (s : string) : includes s EmptyString = true.
Proof. destruct s; reflexivity. Qed.

Lemma append_assoc (a b c : string) : (a +:+ b) +:+ c = a +:+ b +:+ c.
Proof.
  induction a as [|x a IH]; [reflexivity|].
  rewrite !append_String, IH. reflexivity.
Qed.

Lemma includes_extend (s t before after : string) :
  includes s t = true → includes (before +:+ s +:+ after) t = true.
Proof.
  rewrite !includes_spec. intros (b & a & ->).
  exists (before +:+ b), (a +:+ after).
  rewrite !append_assoc. reflexivity.
Qed.

(** X16.  [validateStructure] only looks for the three column names
    somewhere in the text: content that passes still passes with any
    text put before and after it, and the order of the names does not
    matter. *)
Theorem validateStructure_monotone (content before after : string) :
  CsvApi.validateStructure content = true →
  CsvApi.validateStructure (before +:+ content +:+ after) = true.
Proof.
  unfold CsvApi.validateStructure. rewrite !andb_true_iff.
  intros [[H1 H2] H3]. repeat split; apply includes_extend; assumption.
Qed.

Lemma validateStructure_monotone_witness :
  CsvApi.validateStructure "Bedrag;Omschrijving;Datum" = true
  ∧ CsvApi.validateStructure
      ("Rekening;" +:+ "Bedrag;Omschrijving;Datum" +:+ ";Saldo") = true.
Proof.
  split; [reflexivity|].
  apply validateStructure_monotone. reflexivity.
Defined.

End IncludesFacts.

(** ** The budget page: further properties *)

Section BudgetsPageMoreFacts.
Import JsNumber BudgetsPage.

Lemma filter_sublist {A} (f : A → bool) (l : list A) :
  sublist (List.filter f l) l.
Proof.
  induction l as [|x l IH]; [constructor|].
  cbn [List.filter]. destruct (f x); [apply sublist_skip | apply sublist_cons];
    exact IH.
Qed.

Lemma filter_Forall {A} (f : A → bool) (l : list A) :
  Forall (λ x, f x = true) (List.filter f l).
Proof.
  apply Forall_forall. intros x Hin.
  apply list_elem_of_In, filter_In in Hin. tauto.
Qed.

Lemma filter_all {A} (f : A → bool) (l : list A) :
  Forall (λ x, f x = true) l → List.filter f l = l.
Proof.
  induction 1 as [|x l Hx _ IH]; [reflexivity|].
  cbn [List.filter]. rewrite Hx, IH. reflexivity.
Qed.

Lemma filter_keeps_Forall {A} (P : A → Prop) (f : A → bool) (l : list A) :
  Forall P l → Forall P (List.filter f l).
Proof.
  intros Hl. rewrite Forall_forall in *. intros x Hin. apply Hl.
  apply list_elem_of_In. apply list_elem_of_In, filter_In in Hin. tauto.
Qed.

(** X8.  The budgets shown are a sublist of the budgets, in their
    order; while inactive budgets are hidden every budget shown is
    active; and filtering what is shown once more changes nothing. *)
Theorem filterBudgets_sound (allBudgets : list BudgetWithCategory)
    (searchTerm : string) (showInactiveBudgets : bool) :
  let shown := filterBudgets allBudgets searchTerm showInactiveBudgets in
  sublist shown allBudgets
  ∧ (showInactiveBudgets = false
     → Forall (λ b, Budget.is_active (budget b) = true) shown)
  ∧ filterBudgets shown searchTerm showInactiveBudgets = shown.
Proof.
  cbn zeta. unfold filterBudgets.
  destruct (JsString.truthy searchTerm), showInactiveBudgets; cbn [negb].
  - split; [apply filter_sublist|]. split; [discriminate|].
    apply filter_all, filter_Forall.
  - split; [etransitivity; apply filter_sublist|].
    split; [intros _; apply filter_Forall|].
    rewrite (filter_all (matches_search searchTerm)).
    + apply filter_all, filter_Forall.
    + apply filter_keeps_Forall, filter_Forall.
  - split; [reflexivity|]. split; [discriminate | reflexivity].
  - split; [apply filter_sublist|].
    split; [intros _; apply filter_Forall|].
    apply filter_all, filter_Forall.
Qed.

Lemma truthy_toLowerCase (s : string) :
  JsString.truthy (JsString.toLowerCase s) = JsString.truthy s.
Proof. destruct s; reflexivity. Qed.

(** X9.  The search does not depend on letter case.  Two search terms
    with the same lower-case form show the same budgets.  And a budget
    is shown exactly when it is one of the budgets, is active unless
    inactive budgets are shown and, for a search term that is not
    empty, its name or the name of its category contains the term, both
    taken in lower case. *)
Theorem search_ignores_case (allBudgets : list BudgetWithCategory)
    (searchTerm searchTerm' : string) (showInactiveBudgets : bool) :
  JsString.toLowerCase searchTerm' = JsString.toLowerCase searchTerm →
  filterBudgets allBudgets searchTerm' showInactiveBudgets
  = filterBudgets allBudgets searchTerm showInactiveBudgets
  ∧ ∀ b,
      b ∈ filterBudgets allBudgets searchTerm showInactiveBudgets
      ↔ b ∈ allBudgets
        ∧ (showInactiveBudgets = false → Budget.is_active (budget b) = true)
        ∧ (searchTerm = EmptyString
           ∨ (∃ before after,
                JsString.toLowerCase (Budget.name (budget b))
                = before +:+ JsString.toLowerCase searchTerm +:+ after)
           ∨ (∃ cat before after,
                category b = Some cat
                ∧ JsString.toLowerCase (Category.name cat)
                  = before +:+ JsString.toLowerCase searchTerm +:+ after)).
Proof.
  intros Hsame. split.
  - unfold filterBudgets, matches_search.
    rewrite <- (truthy_toLowerCase searchTerm'), Hsame, truthy_toLowerCase.
    reflexivity.
  - intros b.
    assert (Hsearch :
              matches_search searchTerm b = true
              ↔ (∃ before after,
                   JsString.toLowerCase (Budget.name (budget b))
                   = before +:+ JsString.toLowerCase searchTerm +:+ after)
                ∨ (∃ cat before after,
                     category b = Some cat
                     ∧ JsString.toLowerCase (Category.name cat)
                       = before +:+ JsString.toLowerCase searchTerm
                         +:+ after)).
    { unfold matches_search. rewrite orb_true_iff, includes_spec.
      destruct (category b) as [cat|].
      - rewrite includes_spec. split.
        + intros [Hname|(before & after & Hcat)]; [left; exact Hname|].
          right. exists cat, before, after. split; [reflexivity|exact Hcat].
        + intros [Hname|(cat' & before & after & [= <-] & Hcat)];
            [left; exact Hname|].
          right. exists before, after. exact Hcat.
      - split.
        + intros [Hname|Hnone]; [left; exact Hname|discriminate Hnone].
        + intros [Hname|(cat' & before & after & Hnone & _)];
            [left; exact Hname|discriminate Hnone]. }
    assert (Hfiltered :
              b ∈ (if JsString.truthy searchTerm
                   then List.filter (matches_search searchTerm) allBudgets
                   else allBudgets)
              ↔ b ∈ allBudgets
                ∧ (searchTerm = EmptyString
                   ∨ matches_search searchTerm b = true)).
    { destruct searchTerm as [|c rest]; cbn [JsString.truthy JsString.is_empty
                                             negb].
      - split; [intros Hin; split; [exact Hin|left; reflexivity] | tauto].
      - rewrite list_elem_of_In, filter_In, <- list_elem_of_In.
        split; [intros [Hin Hm]; split; [exact Hin|right; exact Hm]|].
        intros [Hin [Hempty|Hm]]; [discriminate Hempty|tauto]. }
    unfold filterBudgets. cbn zeta.
    destruct showInactiveBudgets; cbn [negb].
    + rewrite Hfiltered, Hsearch. split.
      * intros [Hin Hterm]. split; [exact Hin|]. split; [discriminate|].
        exact Hterm.
      * intros (Hin & _ & Hterm). split; assumption.
    + rewrite list_elem_of_In, filter_In, <- list_elem_of_In.
      rewrite Hfiltered, Hsearch. split.
      * intros [[Hin Hterm] Hactive]. split; [exact Hin|].
        split; [intros _; exact Hactive | exact Hterm].
      * intros (Hin & Hactive & Hterm).
        split; [split; assumption | apply Hactive; reflexivity].
Qed.

Lemma search_ignores_case_witness :
  let b := {| budget := sample_budget (Some "cat-1") (lit 100) (lit 60) None;
              category := None |} in
  JsString.toLowerCase "schap" = JsString.toLowerCase "SCHAP"
  ∧ filterBudgets [b] "schap" false = filterBudgets [b] "SCHAP" false
  ∧ b ∈ filterBudgets [b] "SCHAP" false.
Proof.
  intros b.
  assert (Hsame : JsString.toLowerCase "schap" = JsString.toLowerCase "SCHAP")
    by reflexivity.
  split; [exact Hsame|].
  destruct (search_ignores_case [b] "SCHAP" "schap" false Hsame)
    as [Hshown Hiff].
  split; [exact Hshown|].
  apply Hiff. split; [apply list_elem_of_here|].
  split; [reflexivity|]. right. left. exists "bood", "pen". reflexivity.
Defined.

Section DeleteFacts.
Variable Backend : Type.
Variable remove : string → Backend → option bool * Backend.

(** X10.  When the user confirms and the backend resolves, deleting a
    budget removes from the list exactly the budgets with its id: none
    with that id is left, every other budget stays, in the same order.
    When the user does not confirm, nothing changes and the backend is
    not called; when the backend rejects, the list is unchanged. *)
Theorem delete_removes_that_budget (target : Budget.t) (st : State)
    (backend : Backend) :
  handleDeleteBudget Backend remove false target st backend = (st, backend)
  ∧ (∀ backend', remove (Budget.id target) backend = (None, backend')
       → budgets (handleDeleteBudget Backend remove true target st backend).1
         = budgets st)
  ∧ (∀ answer backend',
       remove (Budget.id target) backend = (Some answer, backend')
       → let st' :=
           (handleDeleteBudget Backend remove true target st backend).1 in
         Forall (λ b, Budget.id (budget b) ≠ Budget.id target) (budgets st')
         ∧ (∀ b, b ∈ budgets st → Budget.id (budget b) ≠ Budget.id target
                 → b ∈ budgets st')
         ∧ sublist (budgets st') (budgets st)).
Proof.
  split; [reflexivity|]. unfold handleDeleteBudget. split.
  - intros backend' ->. reflexivity.
  - intros answer backend' ->. cbn [fst budgets]. split; [|split].
    + eapply Forall_impl; [apply filter_Forall|].
      intros b Hb. apply negb_true_iff, String.eqb_neq in Hb. exact Hb.
    + intros b Hin Hne. apply list_elem_of_In, filter_In.
      split; [apply list_elem_of_In, Hin|].
      apply negb_true_iff, String.eqb_neq, Hne.
    + apply filter_sublist.
Qed.

End DeleteFacts.

Section AmountFieldFacts.
Variable Backend : Type.
Variable create : BudgetFormData → Backend → option Budget.t * Backend.
Variable today : string.

Lemma typed_amount_le_zero (typed : number) :
  le (if truthy typed then typed else lit 0) (lit 0) = negb (gt typed (lit 0)).
Proof. destruct typed as [[]|[]| |[] m e]; reflexivity. Qed.

(** X11.  After the user types into the amount field, the form is
    valid exactly when the name is not blank and the typed text reads as
    a number greater than 0: text that does not read as a number is
    stored as 0 and is rejected like 0 and like negative amounts. *)
Theorem typed_amount_must_be_positive (value : string) (st : State)
    (backend : Backend) :
  invalid_form (formData (onAmountChange value st))
  = negb (JsString.truthy (JsString.trim (name (formData st))))
    || negb (gt (JsString.parseFloat value) (lit 0))
  ∧ (gt (JsString.parseFloat value) (lit 0) = false
     → handleCreateBudget Backend create today (onAmountChange value st)
                          backend
       = (setError validation_message (onAmountChange value st), backend)).
Proof.
  assert (Hinvalid :
    invalid_form (formData (onAmountChange value st))
    = negb (JsString.truthy (JsString.trim (name (formData st))))
      || negb (gt (JsString.parseFloat value) (lit 0))).
  { unfold invalid_form, onAmountChange. cbn [formData name amount].
    rewrite typed_amount_le_zero. reflexivity. }
  split; [exact Hinvalid|].
  intros Hgt. unfold handleCreateBudget.
  rewrite Hinvalid, Hgt, orb_true_r. reflexivity.
Qed.

End AmountFieldFacts.

Lemma ge_percentage_100_iff (b : Budget.t) :
  ge (getProgressPercentage b) (lit 100) = true
  ↔ le (Budget.amount b) (lit 0) = false
    ∧ ge (raw_percentage b) (lit 100) = true.
Proof.
  rewrite ge_percentage_100.
  destruct (le (Budget.amount b) (lit 0)); cbn [negb andb].
  - split; [discriminate | intros [? _]; discriminate].
  - tauto.
Qed.

Lemma at_least_100_at_least_80 (p : number) :
  ge p (lit 100) = true → ge p (lit 80) = true.
Proof.
  unfold ge, SFleb.
  destruct p as [s|[]| |[] m e]; try (vm_compute; congruence).
  change (lit 100) with (S754_finite false 7036874417766400 (-46)).
  change (lit 80) with (S754_finite false 5629499534213120 (-46)).
  cbn [SFcompare].
  destruct (Z.compare_spec (-46) e) as [He|He|He]; try congruence.
  rewrite !Pos.compare_cont_spec. cbn [Pos.switch_Eq].
  destruct (Pos.compare_spec 7036874417766400 m) as [Hm|Hm|Hm];
    cbn [Pos.switch_Eq]; try discriminate; intros _.
  - subst m. reflexivity.
  - destruct (Pos.compare_spec 5629499534213120 m) as [Hm'|Hm'|Hm'];
      cbn [Pos.switch_Eq]; try reflexivity.
    pose proof (Pos.lt_trans _ _ _ Hm Hm') as Habs.
    vm_compute in Habs. discriminate Habs.
Qed.

(** X12.  The status is OverBudget exactly when the amount is not at
    most 0 and [spent / amount * 100 >= 100]; a budget whose amount is
    at most 0 has status Goed and progress 0 whatever was spent; and the
    progress bar is drawn in the error colour exactly when the progress
    is at least 80, so it is never drawn in the warning colour of the
    status chip. *)
Theorem status_bands (b : Budget.t) :
  (text (getBudgetStatus b) = "OverBudget"
   ↔ le (Budget.amount b) (lit 0) = false
     ∧ ge (raw_percentage b) (lit 100) = true)
  ∧ (le (Budget.amount b) (lit 0) = true
     → text (getBudgetStatus b) = "Goed"
       ∧ getProgressPercentage b = lit 0)
  ∧ (progress_bar_color b = error_main
     ↔ ge (getProgressPercentage b) (lit 80) = true)
  ∧ progress_bar_color b ≠ warning_main.
Proof.
  assert (Hbar : progress_bar_color b = error_main
                 ↔ ge (getProgressPercentage b) (lit 80) = true).
  { unfold progress_bar_color, getBudgetStatus.
    destruct (ge (getProgressPercentage b) (lit 80)) eqn:H80; [tauto|].
    destruct (ge (getProgressPercentage b) (lit 100)) eqn:H100.
    - apply at_least_100_at_least_80 in H100. congruence.
    - destruct (ge (getProgressPercentage b) (lit 50));
        cbn [color]; split; discriminate. }
  split; [|split; [|split; [exact Hbar|]]].
  - rewrite <- ge_percentage_100_iff. unfold getBudgetStatus.
    destruct (ge (getProgressPercentage b) (lit 100)); [cbn; tauto|].
    destruct (ge (getProgressPercentage b) (lit 80));
      [cbn; split; discriminate|].
    destruct (ge (getProgressPercentage b) (lit 50));
      cbn; split; discriminate.
  - intros Hamount. unfold getBudgetStatus, getProgressPercentage.
    rewrite Hamount. split; reflexivity.
  - unfold progress_bar_color, getBudgetStatus.
    destruct (ge (getProgressPercentage b) (lit 80)) eqn:H80; [discriminate|].
    destruct (ge (getProgressPercentage b) (lit 100));
      [cbn; discriminate|].
    destruct (ge (getProgressPercentage b) (lit 50)); cbn; discriminate.
Qed.

End BudgetsPageMoreFacts.

(** ** The transactions page *)

Section TransactionsPageFacts.
Import JsNumber TransactionsPage.

Lemma toLowerCase_empty : JsString.toLowerCase EmptyString = EmptyString.
Proof. reflexivity. Qed.

Lemma matches_filters_default (tx : Transaction.t) (d : string) :
  Transaction.description tx = Some d →
  matches_filters "" all_types "all" tx = Ok true.
Proof.
  intros Hd. unfold matches_filters. rewrite Hd.
  cbn [mbind mret outcome_bind outcome_ret].
  rewrite toLowerCase_empty, includes_empty. reflexivity.
Qed.

Lemma filteredTransactions_inv (txs : list Transaction.t)
    (searchQuery : string) (filterType : TypeFilter)
    (selectedCategory : string) :
  ∀ shown,
    filteredTransactions txs searchQuery filterType selectedCategory
    = Ok shown →
    sublist shown txs
    ∧ Forall (λ tx, matches_filters searchQuery filterType selectedCategory tx
                    = Ok true) shown
    ∧ Forall (λ tx, is_Some (Transaction.description tx)) txs.
Proof.
  induction txs as [|tx rest IH]; intros shown.
  - intros [= <-]. repeat split; constructor.
  - cbn [filteredTransactions].
    destruct (matches_filters searchQuery filterType selectedCategory tx)
      as [keep|e] eqn:Hkeep;
      cbn [mbind mret outcome_bind outcome_ret]; [|discriminate].
    destruct (filteredTransactions rest searchQuery filterType
                selectedCategory) as [kept|e] eqn:Hrest;
      cbn [mbind mret outcome_bind outcome_ret]; [|discriminate].
    intros [= <-]. destruct (IH kept eq_refl) as (Hsub & Hall & Hdesc).
    assert (Hd : is_Some (Transaction.description tx)).
    { unfold matches_filters in Hkeep.
      destruct (Transaction.description tx); [eauto|discriminate Hkeep]. }
    destruct keep.
    + split; [apply sublist_skip, Hsub|].
      split; constructor; assumption.
    + split; [apply sublist_cons, Hsub|].
      split; [exact Hall | constructor; assumption].
Qed.

Lemma shown_have_filter_type (txs shown : list Transaction.t)
    (searchQuery selectedCategory : string) (t : TransactionType) :
  filteredTransactions txs searchQuery (only t) selectedCategory = Ok shown →
  Forall (λ tx, Transaction.transaction_type tx = t) shown.
Proof.
  intros Hshown.
  destruct (filteredTransactions_inv _ _ _ _ _ Hshown) as (_ & Hall & _).
  eapply Forall_impl; [exact Hall|]. intros tx Hmatch.
  unfold matches_filters in Hmatch.
  destruct (Transaction.description tx); [|discriminate Hmatch].
  cbn [mbind mret outcome_bind outcome_ret] in Hmatch.
  injection Hmatch as Hmatch.
  apply andb_true_iff in Hmatch as [Hmatch _].
  apply andb_true_iff in Hmatch as [_ Htype].
  apply bool_decide_eq_true in Htype. exact Htype.
Qed.

(** X13.  With the default filters (empty search, all types, all
    categories) the page shows every transaction.  Whatever the filters,
    what is shown is a sublist of the transactions and, under a type
    filter, holds only transactions of that type.  A transaction without
    description makes the filter raise a TypeError. *)
Theorem transaction_filters_sound (txs : list Transaction.t) :
  (Forall (λ tx, is_Some (Transaction.description tx)) txs
   → filteredTransactions txs "" all_types "all" = Ok txs)
  ∧ (∀ searchQuery filterType selectedCategory shown,
       filteredTransactions txs searchQuery filterType selectedCategory
       = Ok shown
       → sublist shown txs
         ∧ ∀ t, filterType = only t
                → Forall (λ tx, Transaction.transaction_type tx = t) shown)
  ∧ (∀ searchQuery filterType selectedCategory tx,
       tx ∈ txs → Transaction.description tx = None
       → filteredTransactions txs searchQuery filterType selectedCategory
         = Throw TypeError).
Proof.
  split; [|split].
  - induction 1 as [|tx rest [d Hd] _ IH]; [reflexivity|].
    cbn [filteredTransactions].
    rewrite (matches_filters_default tx d Hd), IH. reflexivity.
  - intros searchQuery filterType selectedCategory shown Hshown.
    destruct (filteredTransactions_inv _ _ _ _ _ Hshown) as (Hsub & _ & _).
    split; [exact Hsub|]. intros t ->.
    eapply shown_have_filter_type, Hshown.
  - intros searchQuery filterType selectedCategory tx Hin Hnone.
    induction txs as [|tx' rest IH]; [inversion Hin|].
    cbn [filteredTransactions].
    apply elem_of_cons in Hin as [<-|Hin].
    + unfold matches_filters. rewrite Hnone. reflexivity.
    + destruct (matches_filters searchQuery filterType selectedCategory tx')
        as [keep|[]] eqn:Hkeep;
        cbn [mbind mret outcome_bind outcome_ret]; [|reflexivity].
      rewrite (IH Hin). reflexivity.
Qed.

Lemma total_of_other_kind (kind other : TransactionType)
    (shown : list Transaction.t) :
  kind ≠ other →
  Forall (λ tx, Transaction.transaction_type tx = other) shown →
  total_of kind shown = lit 0.
Proof.
  intros Hne Hall. unfold total_of.
  replace (List.filter _ shown) with (@nil Transaction.t); [reflexivity|].
  symmetry. induction Hall as [|tx rest Htx _ IH]; [reflexivity|].
  cbn [List.filter]. rewrite IH, Htx.
  rewrite bool_decide_eq_false_2 by congruence. reflexivity.
Qed.

(** X14.  Under the type filter credit the total of expenses shown is 0,
    and under the type filter debit the total of income is 0, whatever
    the transactions. *)
Theorem totals_under_type_filter (txs shown : list Transaction.t)
    (searchQuery selectedCategory : string) (t : TransactionType) :
  filteredTransactions txs searchQuery (only t) selectedCategory = Ok shown →
  (t = credit → totalExpenses shown = lit 0)
  ∧ (t = debit → totalIncome shown = lit 0).
Proof.
  intros Hshown.
  pose proof (shown_have_filter_type _ _ _ _ _ Hshown) as Htype.
  split; intros ->; eapply total_of_other_kind; try exact Htype; discriminate.
Qed.

Lemma totals_under_type_filter_witness :
  ∃ txs clock' shown,
    ImportScript.parseCsvToTransactions groceries_two_years_csv
      (fixed_clock 1731575000000) = Ok (txs, clock')
    ∧ filteredTransactions txs "" (only credit) "all" = Ok shown
    ∧ (credit = credit → totalExpenses shown = lit 0)
    ∧ (credit = debit → totalIncome shown = lit 0).
Proof.
  eexists _, _, _.
  assert (Hrun : ImportScript.parseCsvToTransactions groceries_two_years_csv
                   (fixed_clock 1731575000000) = Ok (_, _))
    by (vm_compute; reflexivity).
  split; [exact Hrun|].
  match goal with
  | |- filteredTransactions ?l _ _ _ = _ ∧ _ =>
      assert (Hshown : filteredTransactions l "" (only credit) "all" = Ok _)
        by (vm_compute; reflexivity)
  end.
  split; [exact Hshown|].
  exact (totals_under_type_filter _ _ _ _ _ Hshown).
Defined.

(** X15.  Removing a notification by id leaves none with that id; and a
    notification that is added under an id no other notification has is
    removed again by that id, which restores the list. *)
Theorem notification_added_then_removed (n : Notification)
    (prev : list Notification) :
  Forall (λ m, id m ≠ id n) prev →
  removeNotification (id n) (addNotification n prev) = prev
  ∧ ∀ wanted,
      Forall (λ m, id m ≠ wanted) (removeNotification wanted prev).
Proof.
  intros Hfresh. split.
  - unfold removeNotification, addNotification.
    rewrite List.filter_app. cbn [List.filter].
    rewrite String.eqb_refl. cbn [negb]. rewrite app_nil_r.
    apply filter_all. eapply Forall_impl; [exact Hfresh|].
    intros m Hm. apply negb_true_iff, String.eqb_neq, Hm.
  - intros wanted. eapply Forall_impl; [apply filter_Forall|].
    intros m Hm. apply negb_true_iff, String.eqb_neq in Hm. exact Hm.
Qed.

Lemma notification_added_then_removed_witness :
  let shown := {| id := "1731575000000"; type := error;
                  title := "Fout bij laden";
                  message := Some "Transacties konden niet worden geladen";
                  duration := None; persistent := None |} in
  let added := {| id := "1731575060000"; type := success;
                  title := "Import succesvol";
                  message := Some "2 transacties geïmporteerd";
                  duration := None; persistent := None |} in
  Forall (λ m, id m ≠ id added) [shown]
  ∧ removeNotification (id added) (addNotification added [shown]) = [shown]
  ∧ ∀ wanted,
      Forall (λ m, id m ≠ wanted) (removeNotification wanted [shown]).
Proof.
  intros shown added.
  assert (Hfresh : Forall (λ m, id m ≠ id added) [shown])
    by (repeat constructor; discriminate).
  split; [exact Hfresh|].
  exact (notification_added_then_removed added [shown] Hfresh).
Defined.

End TransactionsPageFacts.
